(** * DeltaOptima / pipeTimer: run-history analysis and Spark event-log aggregation

  A shallow embedding of

  - [pipeTimer_src/analysis/engine.py] ([AnalysisEngine._format_duration],
    [AnalysisEngine._format_timestamp], [AnalysisEngine.analyze_run_history]);
  - [pipeTimer_src/parsers/spark_event_log_parser.py]
    ([SparkEventLogParser._parse_event], [SparkEventLogParser.parse_log_file]).

  Python values are dynamically typed; the embedding keeps the distinctions
  the code depends on: a dictionary key that is missing versus a key bound
  to [None], exceptions raised half-way through an update, and binary64
  arithmetic for every [float]. *)

From Stdlib Require Import ZArith String Ascii List Lia Bool.
From Stdlib Require Import Floats.SpecFloat.
From stdpp Require Import gmap strings list pretty sorting.

(** ** Exceptions *)

Inductive exn : Type :=
| TypeError
| AttributeError
| OverflowError
| ValueError
| ZeroDivisionError
| KeyError.

Inductive result (A : Type) : Type :=
| Ok (a : A)
| Raise (e : exn).

Arguments Ok {A} a.
Arguments Raise {A} e.

#[global] Instance result_ret : MRet result := fun A a => Ok a.
#[global] Instance result_bind : MBind result := fun A B k m =>
match m with
| Ok a => k a
| Raise e => Raise e
end.

#[global] Instance result_fmap : FMap result := fun A B f m =>
  match m with
  | Ok a => Ok (f a)
  | Raise e => Raise e
  end.

Definition returns {A} (m : result A) : Prop := ∃ a, m = Ok a.

Definition returnsb {A} (m : result A) : bool :=
match m with Ok _ => true | Raise _ => false end.

(** ** Python floats: IEEE 754 binary64

  The operations are those of the reference specification of binary64 in
  the Standard Library ([SpecFloat]), at [prec = 53] and [emax = 1024]. *)

Module PyFloat.
Local Open Scope Z_scope.

Definition prec : Z := 53.
Definition emax : Z := 1024.

Abbreviation float := spec_float.

Definition of_Z (z : Z) : float := binary_normalize prec emax z 0 false.

(** [float(n)] for an [int] operand of a mixed operation
    (PyLong_AsDouble): correctly rounded, [OverflowError] beyond the range. *)
Definition float_of_int (z : Z) : result float :=
  match of_Z z with
  | S754_infinity _ => Raise OverflowError
  | x => Ok x
  end.

Definition fzero : float := S754_zero false.
Definition fone : float := of_Z 1.
Definition fhalf : float := S754_finite false 4503599627370496 (-53).

Definition is_zero (x : float) : bool :=
  match x with S754_zero _ => true | _ => false end.

Definition signbit (x : float) : bool :=
  match x with
  | S754_zero s | S754_infinity s | S754_finite s _ _ => s
  | S754_nan => false
  end.

Definition copysign0 (x : float) : float := S754_zero (signbit x).

Definition add : float → float → float := SFadd prec emax.
Definition sub : float → float → float := SFsub prec emax.
Definition mul : float → float → float := SFmul prec emax.
Definition div : float → float → float := SFdiv prec emax.
Definition ltb : float → float → bool := SFltb.
Definition eqb : float → float → bool := SFeqb.
Definition gtb (x y : float) : bool := SFltb y x.

(** [x / y] on floats: Python raises on a zero divisor. *)
Definition float_truediv (x y : float) : result float :=
  if is_zero y then Raise ZeroDivisionError else Ok (div x y).

(** [a / b] on ints (long_true_divide): the quotient of the two integers,
    rounded once. *)
Definition int_truediv (a b : Z) : result float :=
  match a, b with
  | _, Z0 => Raise ZeroDivisionError
  | Z0, _ => Ok (S754_zero (b <? 0))
  | _, _ =>
      match div (S754_finite (a <? 0) (Z.to_pos (Z.abs a)) 0)
                (S754_finite (b <? 0) (Z.to_pos (Z.abs b)) 0) with
      | S754_infinity _ => Raise OverflowError
      | q => Ok q
      end
  end.

(** C [fmod]: exact, the sign of the dividend. *)
Definition fmod (x y : float) : float :=
  match x, y with
  | S754_nan, _ | _, S754_nan => S754_nan
  | S754_infinity _, _ => S754_nan
  | _, S754_zero _ => S754_nan
  | _, S754_infinity _ => x
  | S754_zero _, _ => x
  | S754_finite sx mx ex, S754_finite _ my ey =>
      let e := Z.min ex ey in
      let r := Z.rem (Z.pos mx * 2 ^ (ex - e)) (Z.pos my * 2 ^ (ey - e)) in
      binary_normalize prec emax (if sx then - r else r) e sx
  end.

(** C [floor]: exact. *)
Definition floor (x : float) : float :=
  match x with
  | S754_finite s m e =>
      if 0 <=? e then x
      else binary_normalize prec emax
             ((if s then Z.neg m else Z.pos m) / 2 ^ (- e)) 0 s
  | _ => x
  end.

(** [divmod(vx, wx)] on floats, as CPython's float_divmod computes it. *)
Definition float_divmod (vx wx : float) : result (float * float) :=
  if is_zero wx then Raise ZeroDivisionError
  else
    let mod0 := fmod vx wx in
    let div0 := div (sub vx mod0) wx in
    let '(mod1, div1) :=
      if negb (is_zero mod0) then
        if xorb (ltb wx fzero) (ltb mod0 fzero)
        then (add mod0 wx, sub div0 fone)
        else (mod0, div0)
      else (copysign0 wx, div0) in
    let floordiv :=
      if is_zero div1 then copysign0 (div vx wx)
      else
        let fl := floor div1 in
        if gtb (sub div1 fl) fhalf then add fl fone else fl in
    Ok (floordiv, mod1).

(** [int(x)]: truncation towards zero. *)
Definition int_of_float (x : float) : result Z :=
  match x with
  | S754_nan => Raise ValueError
  | S754_infinity _ => Raise OverflowError
  | S754_zero _ => Ok 0
  | S754_finite s m e =>
      let a := if 0 <=? e then Z.pos m * 2 ^ e else Z.pos m / 2 ^ (- e) in
      Ok (if s then - a else a)
  end.

(** Nearest integer to [num / den], ties to even ([0 ≤ num], [0 < den]). *)
Definition round_half_even (num den : Z) : Z :=
  let q := num / den in
  match 2 * (num mod den) ?= den with
  | Lt => q
  | Eq => if Z.even q then q else q + 1
  | Gt => q + 1
  end.

Definition two_digits (n : Z) : string :=
  if n <? 10 then "0" +:+ pretty n else pretty n.

(** [f"{x:.2f}"]: the exact binary value, rounded to two decimals,
    ties to even. *)
Definition format_2f (x : float) : string :=
  match x with
  | S754_nan => "nan"
  | S754_infinity s => if s then "-inf" else "inf"
  | S754_zero s => if s then "-0.00" else "0.00"
  | S754_finite s m e =>
      let n := if 0 <=? e then 100 * Z.pos m * 2 ^ e
               else round_half_even (100 * Z.pos m) (2 ^ (- e)) in
      (if s then "-" else "") +:+ pretty (n / 100) +:+ "." +:+ two_digits (n mod 100)
  end.
End PyFloat.

(** A Python number: [int] or [float]. *)
Inductive pynum : Type :=
| PInt (z : Z)
| PFloat (x : PyFloat.float).

Definition to_float (n : pynum) : result PyFloat.float :=
match n with
| PInt z => PyFloat.float_of_int z
| PFloat x => Ok x
end.

(** ** The analysis engine ([analysis/engine.py]) *)

Module Engine.
Import PyFloat.
Local Open Scope Z_scope.

(** [AnalysisEngine._format_duration] *)
Definition _format_duration (milliseconds : option pynum) : result string :=
  match milliseconds with
  | None => Ok "N/A"
  | Some ms =>
      ms_f ← to_float ms;
      seconds ← float_truediv ms_f (of_Z 1000);
      if ltb seconds fzero then Ok "Invalid duration"
      else
        '(days, remainder) ← float_divmod seconds (of_Z 86400);
        '(hours, remainder) ← float_divmod remainder (of_Z 3600);
        '(minutes, seconds_val) ← float_divmod remainder (of_Z 60);
        let parts : list string := [] in
        parts ← (if gtb days fzero
                 then d ← int_of_float days; Ok (parts ++ [pretty d +:+ "d"])
                 else Ok parts);
        parts ← (if gtb hours fzero
                 then h ← int_of_float hours; Ok (parts ++ [pretty h +:+ "h"])
                 else Ok parts);
        parts ← (if gtb minutes fzero
                 then m ← int_of_float minutes; Ok (parts ++ [pretty m +:+ "m"])
                 else Ok parts);
        let parts :=
          if gtb seconds_val fzero
             || bool_decide (parts = [])
             || (eqb days fzero && eqb hours fzero && eqb minutes fzero)
          then parts ++ [format_2f seconds_val +:+ "s"]
          else parts in
        Ok (match parts with
            | [] => "0.00s"
            | _ => String.concat " " parts
            end)
  end.

(** *** Run records

    A run is a Python [dict]. A key can be missing, bound to [None], or bound
    to a value: [d.get(k)] does not tell the first two apart, [d.get(k, v)]
    does. *)

Inductive field (A : Type) : Type :=
| Missing
| Null
| Value (a : A).

Arguments Missing {A}.
Arguments Null {A}.
Arguments Value {A} a.

#[global] Instance field_eq_dec `{EqDecision A} : EqDecision (field A).
Proof. solve_decision. Defined.

(** [d.get(k)] *)
Definition get {A} (f : field A) : option A :=
  match f with
  | Value a => Some a
  | Missing | Null => None
  end.

(** [d.get(k, v)] *)
Definition get_default {A} (f : field A) (v : A) : option A :=
  match f with
  | Missing => Some v
  | Null => None
  | Value a => Some a
  end.

Record run : Type := {
  run_id : field Z;
  start_time : field Z;
  execution_duration : field Z;
  result_state : field string
}.

(** *** Library calls

    [datetime.fromtimestamp(t, tz=timezone.utc)], [strftime] and the numpy
    reductions are not code of this repository; they are taken as given. *)

Record library : Type := {
  datetime : Type;
  fromtimestamp_utc : float → result datetime;
  strftime : datetime → string → string;
  np_min : list Z → float;
  np_max : list Z → float;
  np_mean : list Z → float;
  np_median : list Z → float;
  np_std : list Z → float
}.

(** *** Reports *)

Record notable_run : Type := {
  nr_run_id : option Z;
  duration_str : string;
  start_time_utc : string;
  nr_result_state : option string
}.

Record stats (A : Type) : Type := {
  st_min : A;
  st_max : A;
  st_mean : A;
  st_median : A;
  st_std_dev : A
}.

Arguments Build_stats {A}.
Arguments st_min {A}.
Arguments st_max {A}.
Arguments st_mean {A}.
Arguments st_median {A}.
Arguments st_std_dev {A}.

(** [duration_stats_ms] and [duration_stats_str] are [None] for the empty
    dict [{}] the code starts from. *)
Record analysis : Type := {
  total_runs_analyzed : nat;
  period_start_utc : string;
  period_end_utc : string;
  duration_stats_ms : option (stats float);
  duration_stats_str : option (stats string);
  success_rate_percent : string;
  status_counts : gmap (option string) nat;
  longest : list notable_run;
  shortest : list notable_run;
  recent_failures : list notable_run
}.

(** [collections.Counter(xs)] *)
Definition Counter (xs : list (option string)) : gmap (option string) nat :=
  foldl (λ c x, <[x := S (default 0%nat (c !! x))]> c) ∅ xs.

(** [sorted(xs, key=key, reverse=True)]: every comparison with a [None] key
    raises [TypeError], and a list of two or more elements compares each of
    them at least once; the sort is stable. *)
Fixpoint insert_desc {A} (key : A → Z) (x : A) (sorted : list A) : list A :=
  match sorted with
  | [] => [x]
  | y :: rest =>
      if key x <? key y then y :: insert_desc key x rest
      else x :: sorted
  end.

Definition sort_desc {A} (key : A → Z) (xs : list A) : list A :=
  foldr (insert_desc key) [] xs.

Definition sorted_reverse {A} (key : A → option Z) (xs : list A) : result (list A) :=
  if bool_decide (2 ≤ length xs)%nat && negb (forallb (λ x, bool_decide (is_Some (key x))) xs)
  then Raise TypeError
  else Ok (sort_desc (λ x, default 0 (key x)) xs).

(** [lambda r: r.get('execution_duration', 0)] and
    [lambda r: r.get('start_time', 0)] *)
Definition duration_key (r : run) : option Z := get_default (execution_duration r) 0.
Definition start_key (r : run) : option Z := get_default (start_time r) 0.

(** [min(xs)] and [max(xs)] on a list the caller knows to be non-empty. *)
Definition py_min (xs : list Z) : Z := foldr Z.min (hd 0 xs) xs.
Definition py_max (xs : list Z) : Z := foldr Z.max (hd 0 xs) xs.

(** [f"{x:.2f}"] for an [int] or a [float] *)
Definition format_2f_num (x : pynum) : result string :=
  format_2f <$> to_float x.

Section Analysis.
Variable L : library.

(** [AnalysisEngine._format_timestamp] *)
Definition _format_timestamp (timestamp_ms : option Z) (include_tz : bool) : result string :=
  match timestamp_ms with
  | None => Ok "N/A"
  | Some ms =>
      t ← int_truediv ms 1000;
      dt_obj ← fromtimestamp_utc L t;
      if include_tz then Ok (strftime L dt_obj "%Y-%m-%d %H:%M:%S %Z")
      else Ok (strftime L dt_obj "%Y-%m-%d %H:%M:%S")
  end.

(** The dict appended to a notable-runs list. *)
Definition notable_entry (r : run) : result notable_run :=
  d ← _format_duration (PInt <$> get (execution_duration r));
  t ← _format_timestamp (get (start_time r)) false;
  Ok {| nr_run_id := get (run_id r);
        duration_str := d;
        start_time_utc := t;
        nr_result_state := get (result_state r) |}.

(** [run.get('result_state') != "SUCCESS" and run.get('result_state') != "UNKNOWN"] *)
Definition failure_candidate (r : run) : bool :=
  bool_decide (get (result_state r) ≠ Some "SUCCESS")
  && bool_decide (get (result_state r) ≠ Some "UNKNOWN").

(** The loop over [runs_sorted_by_time_desc]; [break] leaves it at the fourth
    candidate. *)
Fixpoint recent_failures_loop (runs : list run) (acc : list notable_run)
    (failed_count : nat) : result (list notable_run) :=
  match runs with
  | [] => Ok acc
  | r :: rest =>
      if failure_candidate r then
        if (failed_count <? 3)%nat then
          e ← notable_entry r;
          recent_failures_loop rest (acc ++ [e]) (S failed_count)
        else Ok acc
      else recent_failures_loop rest acc failed_count
  end.

(** [for i in range(min(3, len(xs))): ... xs[i] ...] *)
Definition first_three (xs : list run) : result (list notable_run) :=
  mapM notable_entry (take (Nat.min 3 (length xs)) xs).

(** [self._format_timestamp(min(start_times_ms)) if start_times_ms else "N/A"],
    and the same with [max]. *)
Definition period (bound : list Z → Z) (start_times_ms : list Z) : result string :=
  match start_times_ms with
  | [] => Ok "N/A"
  | _ => _format_timestamp (Some (bound start_times_ms)) true
  end.

(** The [if durations_ms:] block: both dicts stay empty without a duration. *)
Definition duration_stats (durations_ms : list Z)
    : result (option (stats float) * option (stats string)) :=
  match durations_ms with
  | [] => Ok (None, None)
  | _ =>
      let ms := Build_stats (np_min L durations_ms) (np_max L durations_ms)
                  (np_mean L durations_ms) (np_median L durations_ms)
                  (np_std L durations_ms) in
      s_min ← _format_duration (Some (PFloat (st_min ms)));
      s_max ← _format_duration (Some (PFloat (st_max ms)));
      s_mean ← _format_duration (Some (PFloat (st_mean ms)));
      s_median ← _format_duration (Some (PFloat (st_median ms)));
      s_std ← _format_duration (Some (PFloat (st_std_dev ms)));
      Ok (Some ms, Some (Build_stats s_min s_max s_mean s_median s_std))
  end.

(** [(successful_runs / num_runs * 100) if num_runs > 0 else 0] *)
Definition success_rate_of (successful_runs num_runs : nat) : result pynum :=
  if (0 <? num_runs)%nat
  then q ← int_truediv (Z.of_nat successful_runs) (Z.of_nat num_runs);
       Ok (PFloat (mul q (of_Z 100)))
  else Ok (PInt 0).

(** [AnalysisEngine.analyze_run_history]; the argument is [None] when the
    caller passes [None]. *)
Definition analyze_run_history (job_runs_raw : option (list run)) : result (option analysis) :=
  match job_runs_raw with
  | None | Some [] => Ok None
  | Some runs =>
      let num_runs := length runs in
      let durations_ms := omap (λ r, get (execution_duration r)) runs in
      let start_times_ms := omap (λ r, get (start_time r)) runs in
      let result_states := map (λ r, get_default (result_state r) "UNKNOWN") runs in
      let counts := Counter result_states in
      let successful_runs := default 0%nat (counts !! Some "SUCCESS") in
      success_rate ← success_rate_of successful_runs num_runs;
      period_start ← period py_min start_times_ms;
      period_end ← period py_max start_times_ms;
      rate_str ← format_2f_num success_rate;
      '(stats_ms, stats_str) ← duration_stats durations_ms;
      runs_sorted_by_duration ←
        sorted_reverse duration_key runs;
      longest_runs ← first_three runs_sorted_by_duration;
      let runs_sorted_by_duration := reverse runs_sorted_by_duration in
      shortest_runs ← first_three runs_sorted_by_duration;
      runs_sorted_by_time_desc ←
        sorted_reverse start_key runs;
      failures ← recent_failures_loop runs_sorted_by_time_desc [] 0;
      Ok (Some {| total_runs_analyzed := num_runs;
                  period_start_utc := period_start;
                  period_end_utc := period_end;
                  duration_stats_ms := stats_ms;
                  duration_stats_str := stats_str;
                  success_rate_percent := rate_str +:+ "%";
                  status_counts := counts;
                  longest := longest_runs;
                  shortest := shortest_runs;
                  recent_failures := failures |})
  end.
End Analysis.
End Engine.

(** ** A library instance to run the engine on concrete lists

    A plain reading of the library calls: proleptic Gregorian dates in UTC,
    whole seconds; reductions in binary64, left to right. The statements
    about [analyze_run_history] below hold for every [library]; this one
    serves to evaluate the engine on concrete run lists. *)

Module Reference.
Import PyFloat Engine.
Local Open Scope Z_scope.

Definition pad (width : nat) (n : Z) : string :=
  let s := pretty n in
  String.concat "" (replicate (width - String.length s) "0"%string) +:+ s.

(** Days since 1970-01-01 to (year, month, day). *)
Definition civil_from_days (days : Z) : Z * Z * Z :=
  let z := days + 719468 in
  let era := z / 146097 in
  let doe := z - era * 146097 in
  let yoe := (doe - doe / 1460 + doe / 36524 - doe / 146096) / 365 in
  let doy := doe - (365 * yoe + yoe / 4 - yoe / 100) in
  let mp := (5 * doy + 2) / 153 in
  let d := doy - (153 * mp + 2) / 5 + 1 in
  let m := if mp <? 10 then mp + 3 else mp - 9 in
  let y := yoe + era * 400 + (if m <=? 2 then 1 else 0) in
  (y, m, d).

Definition whole_seconds (t : float) : result Z :=
  match t with
  | S754_nan => Raise ValueError
  | S754_infinity _ => Raise OverflowError
  | S754_zero _ => Ok 0
  | S754_finite s m e =>
      let us := if 0 <=? e then 1000000 * Z.pos m * 2 ^ e
                else round_half_even (1000000 * Z.pos m) (2 ^ (- e)) in
      Ok ((if s then - us else us) / 1000000)
  end.

Definition fromtimestamp_utc (t : float) : result Z :=
  secs ← whole_seconds t;
  let '(y, _, _) := civil_from_days (secs / 86400) in
  if (1 <=? y) && (y <=? 9999) then Ok secs else Raise ValueError.

Definition render (secs : Z) : string :=
  let '(y, m, d) := civil_from_days (secs / 86400) in
  let s := secs mod 86400 in
  pad 4 y +:+ "-" +:+ pad 2 m +:+ "-" +:+ pad 2 d +:+ " "
  +:+ pad 2 (s / 3600) +:+ ":" +:+ pad 2 (s mod 3600 / 60) +:+ ":" +:+ pad 2 (s mod 60).

Definition strftime (dt : Z) (format : string) : string :=
  if bool_decide (format = "%Y-%m-%d %H:%M:%S %Z") then render dt +:+ " UTC"
  else if bool_decide (format = "%Y-%m-%d %H:%M:%S") then render dt
  else format.

Definition fsum (xs : list float) : float := foldl add fzero xs.

Definition np_mean (xs : list Z) : float :=
  div (fsum (of_Z <$> xs)) (of_Z (Z.of_nat (length xs))).

Definition np_median (xs : list Z) : float :=
  let s := reverse (sort_desc id xs) in
  let n := length s in
  if Nat.even n
  then div (add (of_Z (s !!! (n / 2 - 1)%nat)) (of_Z (s !!! (n / 2)%nat))) (of_Z 2)
  else of_Z (s !!! (n / 2)%nat).

Definition np_std (xs : list Z) : float :=
  let mu := np_mean xs in
  let sq := (λ x, let d := sub (of_Z x) mu in mul d d) <$> xs in
  SFsqrt prec emax (div (fsum sq) (of_Z (Z.of_nat (length xs)))).

Definition lib : library := {|
  Engine.datetime := Z;
  Engine.fromtimestamp_utc := fromtimestamp_utc;
  Engine.strftime := strftime;
  Engine.np_min := λ xs, of_Z (py_min xs);
  Engine.np_max := λ xs, of_Z (py_max xs);
  Engine.np_mean := np_mean;
  Engine.np_median := np_median;
  Engine.np_std := np_std
|}.
End Reference.


(** ** The event-log parser ([parsers/spark_event_log_parser.py]) *)

Module Parser.
Local Open Scope Z_scope.

(** *** Values built by [json.loads]

    Numbers are integers: the fields the parser reads are counts, byte
    totals and epoch-millisecond timestamps. An object lists each key once;
    a lookup takes the first binding. *)

#[local] Set Warnings "-register-all".

Inductive json : Type :=
| JNull
| JBool (b : bool)
| JInt (z : Z)
| JStr (s : string)
| JList (xs : list json)
| JObj (kvs : list (string * json)).

Fixpoint assoc (k : string) (kvs : list (string * json)) : option json :=
  match kvs with
  | [] => None
  | (k', v) :: rest => if bool_decide (k' = k) then Some v else assoc k rest
  end.

(** [v.get(k, d)]; only a dict has [get]. *)
Definition dict_get_default (v : json) (k : string) (d : json) : result json :=
  match v with
  | JObj kvs => Ok (default d (assoc k kvs))
  | _ => Raise AttributeError
  end.

(** [v.get(k)] *)
Definition dict_get (v : json) (k : string) : result json :=
  dict_get_default v k JNull.

(** [bool(v)] *)
Definition truthy (v : json) : bool :=
  match v with
  | JNull => false
  | JBool b => b
  | JInt z => negb (z =? 0)
  | JStr s => negb (bool_decide (s = ""))
  | JList [] | JObj [] => false
  | JList (_ :: _) | JObj (_ :: _) => true
  end.

(** [v == "literal"] *)
Definition is_str (v : json) (literal : string) : bool :=
  match v with
  | JStr s => bool_decide (s = literal)
  | _ => false
  end.

(** [isinstance(v, (int, float))]: [bool] is a subclass of [int]. *)
Definition as_number (v : json) : option Z :=
  match v with
  | JInt z => Some z
  | JBool b => Some (if b then 1 else 0)
  | _ => None
  end.

(** [a - b] *)
Definition py_sub (a b : json) : result Z :=
  match as_number a, as_number b with
  | Some x, Some y => Ok (x - y)
  | _, _ => Raise TypeError
  end.

(** [a + b] *)
Definition py_add (a b : json) : result json :=
  match as_number a, as_number b with
  | Some x, Some y => Ok (JInt (x + y))
  | _, _ =>
      match a, b with
      | JStr s, JStr t => Ok (JStr (s +:+ t))
      | JList xs, JList ys => Ok (JList (xs ++ ys))
      | _, _ => Raise TypeError
      end
  end.

(** [n += v] for an [int] counter [n] *)
Definition iadd (n : Z) (v : json) : result Z :=
  match as_number v with
  | Some x => Ok (n + x)
  | None => Raise TypeError
  end.

(** [for x in v] *)
Definition py_iter (v : json) : result (list json) :=
  match v with
  | JList xs => Ok xs
  | JObj kvs => Ok ((λ kv, JStr kv.1) <$> kvs)
  | JStr s => Ok ((λ c, JStr (String c "")) <$> list_ascii_of_string s)
  | JNull | JBool _ | JInt _ => Raise TypeError
  end.

(** Keys of [parsed_data["jobs"]] and [parsed_data["stages"]]: [True] and [1]
    are the same key, lists and dicts are unhashable. *)
Inductive key : Type :=
| KNone
| KInt (z : Z)
| KStr (s : string).

#[global] Instance key_eq_dec : EqDecision key.
Proof. solve_decision. Defined.

#[global] Instance key_countable : Countable key.
Proof.
  refine (inj_countable'
    (λ k, match k with
          | KNone => inl ()
          | KInt z => inr (inl z)
          | KStr s => inr (inr s)
          end)
    (λ x, match x with
          | inl _ => KNone
          | inr (inl z) => KInt z
          | inr (inr s) => KStr s
          end) _).
  by intros [].
Defined.

Definition hash (v : json) : result key :=
  match v with
  | JNull => Ok KNone
  | JBool b => Ok (KInt (if b then 1 else 0))
  | JInt z => Ok (KInt z)
  | JStr s => Ok (KStr s)
  | JList _ | JObj _ => Raise TypeError
  end.

(** *** [parsed_data]

    A field of type [option _] is a key that the dict may lack. *)

Module App.
Record t : Type := {
  app_name : option json;
  app_id : option json;
  start_time : option json;
  spark_user : option json;
  end_time : option json;
  duration_ms : option Z
}.

Definition set_end_time (v : json) (a : t) : t :=
  Build_t (app_name a) (app_id a) (start_time a) (spark_user a) (Some v) (duration_ms a).

Definition set_duration_ms (d : Z) (a : t) : t :=
  Build_t (app_name a) (app_id a) (start_time a) (spark_user a) (end_time a) (Some d).
End App.

Module Job.
Record t : Type := {
  job_id : json;
  submission_time : json;
  stage_ids : json;
  status : json;
  completion_time : option json;
  result : option json;
  duration_ms : option Z
}.

Definition set_completion_time (v : json) (j : t) : t :=
  Build_t (job_id j) (submission_time j) (stage_ids j) (status j)
    (Some v) (result j) (duration_ms j).

Definition set_result (v : json) (j : t) : t :=
  Build_t (job_id j) (submission_time j) (stage_ids j) (status j)
    (completion_time j) (Some v) (duration_ms j).

Definition set_status (v : json) (j : t) : t :=
  Build_t (job_id j) (submission_time j) (stage_ids j) v
    (completion_time j) (result j) (duration_ms j).

Definition set_duration_ms (d : Z) (j : t) : t :=
  Build_t (job_id j) (submission_time j) (stage_ids j) (status j)
    (completion_time j) (result j) (Some d).
End Job.

Module Stage.
Record t : Type := {
  stage_id : json;
  name : json;
  submission_time : json;
  num_tasks : json;
  details : json;
  completion_time : option json;
  status : option json;
  failure_reason : option json;
  duration_ms : option Z
}.

Definition set_completion_time (v : json) (g : t) : t :=
  Build_t (stage_id g) (name g) (submission_time g) (num_tasks g) (details g)
    (Some v) (status g) (failure_reason g) (duration_ms g).

Definition set_status (v : json) (g : t) : t :=
  Build_t (stage_id g) (name g) (submission_time g) (num_tasks g) (details g)
    (completion_time g) (Some v) (failure_reason g) (duration_ms g).

Definition set_failure_reason (v : json) (g : t) : t :=
  Build_t (stage_id g) (name g) (submission_time g) (num_tasks g) (details g)
    (completion_time g) (status g) (Some v) (duration_ms g).

Definition set_duration_ms (d : Z) (g : t) : t :=
  Build_t (stage_id g) (name g) (submission_time g) (num_tasks g) (details g)
    (completion_time g) (status g) (failure_reason g) (Some d).
End Stage.

Record summary_metrics : Type := {
  total_jobs : Z;
  successful_jobs : Z;
  failed_jobs : Z;
  total_stages : Z;
  total_tasks : Z;
  aggregate_shuffle_read_bytes : Z;
  aggregate_shuffle_write_bytes : Z;
  aggregate_input_bytes : Z;
  aggregate_output_bytes : Z
}.

Record parsed_data : Type := {
  application_info : App.t;
  jobs : gmap key Job.t;
  stages : gmap key Stage.t;
  metrics : summary_metrics
}.

(** [SparkEventLogParser.__init__] *)
Definition init : parsed_data := {|
  application_info := App.Build_t None None None None None None;
  jobs := ∅;
  stages := ∅;
  metrics := Build_summary_metrics 0 0 0 0 0 0 0 0 0
|}.

(** *** Updates that can raise half-way

    A statement of [_parse_event] reads and writes [self.parsed_data] and may
    raise; what was written before the exception stays written. *)

Definition M (A : Type) : Type := parsed_data → parsed_data * result A.

Definition ret {A} (a : A) : M A := λ s, (s, Ok a).

Definition bind {A B} (m : M A) (k : A → M B) : M B := λ s,
  match m s with
  | (s', Ok a) => k a s'
  | (s', Raise e) => (s', Raise e)
  end.

Definition lift {A} (r : result A) : M A := λ s, (s, r).

Definition read : M parsed_data := λ s, (s, Ok s).

Definition modify (f : parsed_data → parsed_data) : M unit := λ s, (f s, Ok tt).

Declare Scope parser_scope.
Delimit Scope parser_scope with parser.
Notation "x <- m ;; k" := (bind m (λ x, k))
  (at level 100, m at next level, right associativity) : parser_scope.
Notation "m ;; k" := (bind m (λ _, k))
  (at level 100, right associativity) : parser_scope.
Local Open Scope parser_scope.

Fixpoint for_each {A} (xs : list A) (body : A → M unit) : M unit :=
  match xs with
  | [] => ret tt
  | x :: rest => body x;; for_each rest body
  end.

Definition set_application_info (a : App.t) : M unit :=
  modify (λ s, {| application_info := a; jobs := jobs s;
                  stages := stages s; metrics := metrics s |}).

Definition set_jobs (js : gmap key Job.t) : M unit :=
  modify (λ s, {| application_info := application_info s; jobs := js;
                  stages := stages s; metrics := metrics s |}).

Definition set_stages (ss : gmap key Stage.t) : M unit :=
  modify (λ s, {| application_info := application_info s; jobs := jobs s;
                  stages := ss; metrics := metrics s |}).

Definition set_metrics (m : summary_metrics) : M unit :=
  modify (λ s, {| application_info := application_info s; jobs := jobs s;
                  stages := stages s; metrics := m |}).

(** [self.parsed_data["jobs"][k]] *)
Definition job_at (k : key) : M Job.t :=
  s <- read;;
  match jobs s !! k with
  | Some j => ret j
  | None => lift (Raise KeyError)
  end.

(** [self.parsed_data["stages"][k]] *)
Definition stage_at (k : key) : M Stage.t :=
  s <- read;;
  match stages s !! k with
  | Some g => ret g
  | None => lift (Raise KeyError)
  end.

(** [self.parsed_data["jobs"][k][field] = v] *)
Definition update_job (k : key) (f : Job.t → Job.t) : M unit :=
  j <- job_at k;; s <- read;; set_jobs (<[k := f j]> (jobs s)).

(** [self.parsed_data["stages"][k][field] = v] *)
Definition update_stage (k : key) (f : Stage.t → Stage.t) : M unit :=
  g <- stage_at k;; s <- read;; set_stages (<[k := f g]> (stages s)).

(** [self.parsed_data["summary_metrics"][counter] += v] *)
Definition add_to (counter : summary_metrics → Z)
    (store : Z → summary_metrics → summary_metrics) (v : json) : M unit :=
  s <- read;;
  n <- lift (iadd (counter (metrics s)) v);;
  set_metrics (store n (metrics s)).

Definition store_total_jobs (n : Z) (m : summary_metrics) : summary_metrics :=
  Build_summary_metrics n (successful_jobs m) (failed_jobs m) (total_stages m)
    (total_tasks m) (aggregate_shuffle_read_bytes m) (aggregate_shuffle_write_bytes m)
    (aggregate_input_bytes m) (aggregate_output_bytes m).

Definition store_successful_jobs (n : Z) (m : summary_metrics) : summary_metrics :=
  Build_summary_metrics (total_jobs m) n (failed_jobs m) (total_stages m)
    (total_tasks m) (aggregate_shuffle_read_bytes m) (aggregate_shuffle_write_bytes m)
    (aggregate_input_bytes m) (aggregate_output_bytes m).

Definition store_failed_jobs (n : Z) (m : summary_metrics) : summary_metrics :=
  Build_summary_metrics (total_jobs m) (successful_jobs m) n (total_stages m)
    (total_tasks m) (aggregate_shuffle_read_bytes m) (aggregate_shuffle_write_bytes m)
    (aggregate_input_bytes m) (aggregate_output_bytes m).

Definition store_total_stages (n : Z) (m : summary_metrics) : summary_metrics :=
  Build_summary_metrics (total_jobs m) (successful_jobs m) (failed_jobs m) n
    (total_tasks m) (aggregate_shuffle_read_bytes m) (aggregate_shuffle_write_bytes m)
    (aggregate_input_bytes m) (aggregate_output_bytes m).

Definition store_total_tasks (n : Z) (m : summary_metrics) : summary_metrics :=
  Build_summary_metrics (total_jobs m) (successful_jobs m) (failed_jobs m) (total_stages m)
    n (aggregate_shuffle_read_bytes m) (aggregate_shuffle_write_bytes m)
    (aggregate_input_bytes m) (aggregate_output_bytes m).

Definition store_shuffle_read (n : Z) (m : summary_metrics) : summary_metrics :=
  Build_summary_metrics (total_jobs m) (successful_jobs m) (failed_jobs m) (total_stages m)
    (total_tasks m) n (aggregate_shuffle_write_bytes m)
    (aggregate_input_bytes m) (aggregate_output_bytes m).

Definition store_shuffle_write (n : Z) (m : summary_metrics) : summary_metrics :=
  Build_summary_metrics (total_jobs m) (successful_jobs m) (failed_jobs m) (total_stages m)
    (total_tasks m) (aggregate_shuffle_read_bytes m) n
    (aggregate_input_bytes m) (aggregate_output_bytes m).

Definition store_input (n : Z) (m : summary_metrics) : summary_metrics :=
  Build_summary_metrics (total_jobs m) (successful_jobs m) (failed_jobs m) (total_stages m)
    (total_tasks m) (aggregate_shuffle_read_bytes m) (aggregate_shuffle_write_bytes m)
    n (aggregate_output_bytes m).

Definition store_output (n : Z) (m : summary_metrics) : summary_metrics :=
  Build_summary_metrics (total_jobs m) (successful_jobs m) (failed_jobs m) (total_stages m)
    (total_tasks m) (aggregate_shuffle_read_bytes m) (aggregate_shuffle_write_bytes m)
    (aggregate_input_bytes m) n.

(** *** [SparkEventLogParser._parse_event] *)

Definition parse_application_start (event_json : json) : M unit :=
  app_name <- lift (dict_get event_json "App Name");;
  app_id <- lift (dict_get event_json "App ID");;
  timestamp <- lift (dict_get event_json "Timestamp");;
  spark_user <- lift (dict_get event_json "Spark User");;
  set_application_info
    (App.Build_t (Some app_name) (Some app_id) (Some timestamp) (Some spark_user) None None).

Definition parse_application_end (event_json : json) : M unit :=
  timestamp <- lift (dict_get event_json "Timestamp");;
  s <- read;;
  set_application_info (App.set_end_time timestamp (application_info s));;
  s <- read;;
  let start := default JNull (App.start_time (application_info s)) in
  if truthy start then
    timestamp <- lift (dict_get event_json "Timestamp");;
    duration <- lift (py_sub timestamp start);;
    s <- read;;
    set_application_info (App.set_duration_ms duration (application_info s))
  else ret tt.

Definition parse_job_start (event_json : json) : M unit :=
  job_id <- lift (dict_get event_json "Job ID");;
  submission_time <- lift (dict_get event_json "Submission Time");;
  stage_ids <- lift (dict_get_default event_json "Stage IDs" (JList []));;
  k <- lift (hash job_id);;
  s <- read;;
  set_jobs (<[k := Job.Build_t job_id submission_time stage_ids (JStr "RUNNING")
                     None None None]> (jobs s));;
  add_to total_jobs store_total_jobs (JInt 1).

Definition parse_job_end (event_json : json) : M unit :=
  job_id <- lift (dict_get event_json "Job ID");;
  k <- lift (hash job_id);;
  s <- read;;
  if bool_decide (is_Some (jobs s !! k)) then
    completion_time <- lift (dict_get event_json "Completion Time");;
    update_job k (Job.set_completion_time completion_time);;
    job_result <- lift (dict_get_default event_json "Job Result" (JObj []));;
    result <- lift (dict_get job_result "Result");;
    update_job k (Job.set_result result);;
    job_result <- lift (dict_get_default event_json "Job Result" (JObj []));;
    status <- lift (dict_get_default job_result "Result" (JStr "UNKNOWN"));;
    update_job k (Job.set_status status);;
    j <- job_at k;;
    (if truthy (Job.submission_time j) then
       completion_time <- lift (dict_get event_json "Completion Time");;
       j <- job_at k;;
       duration <- lift (py_sub completion_time (Job.submission_time j));;
       update_job k (Job.set_duration_ms duration)
     else ret tt);;
    j <- job_at k;;
    if is_str (Job.status j) "JobSucceeded"
    then add_to successful_jobs store_successful_jobs (JInt 1)
    else add_to failed_jobs store_failed_jobs (JInt 1)
  else ret tt.

Definition parse_stage_submitted (event_json : json) : M unit :=
  stage_info <- lift (dict_get_default event_json "Stage Info" (JObj []));;
  stage_id <- lift (dict_get stage_info "Stage ID");;
  name <- lift (dict_get stage_info "Name");;
  submission_time <- lift (dict_get stage_info "Submission Time");;
  num_tasks <- lift (dict_get stage_info "Number of Tasks");;
  details <- lift (dict_get stage_info "Details");;
  k <- lift (hash stage_id);;
  s <- read;;
  set_stages (<[k := Stage.Build_t stage_id name submission_time num_tasks details
                       None None None None]> (stages s));;
  add_to total_stages store_total_stages (JInt 1);;
  declared <- lift (dict_get_default stage_info "Number of Tasks" (JInt 0));;
  add_to total_tasks store_total_tasks declared.

(** The body of [for acc in task_metrics] *)
Definition add_accumulable (acc : json) : M unit :=
  name <- lift (dict_get acc "Name");;
  value <- lift (dict_get acc "Value");;
  if bool_decide (is_Some (as_number value)) then
    if is_str name "internal.metrics.shuffle.read.remoteBytesRead"
       || is_str name "internal.metrics.shuffle.read.localBytesRead"
    then add_to aggregate_shuffle_read_bytes store_shuffle_read value
    else if is_str name "internal.metrics.shuffle.write.bytesWritten"
    then add_to aggregate_shuffle_write_bytes store_shuffle_write value
    else if is_str name "internal.metrics.input.bytesRead"
    then add_to aggregate_input_bytes store_input value
    else if is_str name "internal.metrics.output.bytesWritten"
    then add_to aggregate_output_bytes store_output value
    else ret tt
  else ret tt.

(** The [if stage_task_metrics:] branch *)
Definition add_task_metrics (stage_task_metrics : json) : M unit :=
  shuffle_read <- lift (dict_get_default stage_task_metrics "Shuffle Read Metrics" (JObj []));;
  remote <- lift (dict_get_default shuffle_read "Remote Bytes Read" (JInt 0));;
  shuffle_read <- lift (dict_get_default stage_task_metrics "Shuffle Read Metrics" (JObj []));;
  local <- lift (dict_get_default shuffle_read "Local Bytes Read" (JInt 0));;
  read_bytes <- lift (py_add remote local);;
  add_to aggregate_shuffle_read_bytes store_shuffle_read read_bytes;;
  shuffle_write <- lift (dict_get_default stage_task_metrics "Shuffle Write Metrics" (JObj []));;
  written <- lift (dict_get_default shuffle_write "Shuffle Bytes Written" (JInt 0));;
  add_to aggregate_shuffle_write_bytes store_shuffle_write written;;
  input <- lift (dict_get_default stage_task_metrics "Input Metrics" (JObj []));;
  bytes_read <- lift (dict_get_default input "Bytes Read" (JInt 0));;
  add_to aggregate_input_bytes store_input bytes_read;;
  output <- lift (dict_get_default stage_task_metrics "Output Metrics" (JObj []));;
  bytes_written <- lift (dict_get_default output "Bytes Written" (JInt 0));;
  add_to aggregate_output_bytes store_output bytes_written.

(** The [# Accumulate metrics] block of a StageCompleted event *)
Definition accumulate_metrics (stage_info : json) : M unit :=
  task_metrics <- lift (dict_get_default stage_info "Accumulables" (JList []));;
  stage_task_metrics <- lift (dict_get_default stage_info "Task Metrics" (JObj []));;
  if truthy stage_task_metrics then add_task_metrics stage_task_metrics
  else
    accs <- lift (py_iter task_metrics);;
    for_each accs add_accumulable.

Definition parse_stage_completed (event_json : json) : M unit :=
  stage_info <- lift (dict_get_default event_json "Stage Info" (JObj []));;
  stage_id <- lift (dict_get stage_info "Stage ID");;
  k <- lift (hash stage_id);;
  s <- read;;
  if bool_decide (is_Some (stages s !! k)) then
    completion_time <- lift (dict_get stage_info "Completion Time");;
    update_stage k (Stage.set_completion_time completion_time);;
    status <- lift (dict_get_default stage_info "Stage Status" (JStr "UNKNOWN"));;
    update_stage k (Stage.set_status status);;
    failure_reason <- lift (dict_get stage_info "Failure Reason");;
    (if truthy failure_reason
     then update_stage k (Stage.set_failure_reason failure_reason)
     else ret tt);;
    g <- stage_at k;;
    completion_time <- lift (dict_get stage_info "Completion Time");;
    (if truthy (Stage.submission_time g) && truthy completion_time then
       g <- stage_at k;;
       duration <- lift (py_sub completion_time (Stage.submission_time g));;
       update_stage k (Stage.set_duration_ms duration)
     else ret tt);;
    accumulate_metrics stage_info
  else ret tt.

Definition _parse_event (event_json : json) : M unit :=
  event_type <- lift (dict_get event_json "Event");;
  if is_str event_type "SparkListenerApplicationStart" then
    parse_application_start event_json
  else if is_str event_type "SparkListenerApplicationEnd" then
    parse_application_end event_json
  else if is_str event_type "SparkListenerJobStart" then
    parse_job_start event_json
  else if is_str event_type "SparkListenerJobEnd" then
    parse_job_end event_json
  else if is_str event_type "SparkListenerStageSubmitted" then
    parse_stage_submitted event_json
  else if is_str event_type "SparkListenerStageCompleted" then
    parse_stage_completed event_json
  else ret tt.

(** *** [SparkEventLogParser.parse_log_file]

    A line of the file is what [json.loads] makes of it: a value, or
    [JSONDecodeError]. The file is [None] when it cannot be opened. *)

Inductive line : Type :=
| Decoded (event_json : json)
| Undecodable.

Inductive log_record : Type :=
| Warning (line_number : nat)
| Error (line_number : nat) (e : exn).

(** One turn of the [for line_number, line in enumerate(f, 1)] loop. *)
Definition parse_line (st : parsed_data * list log_record) (numbered : nat * line)
    : parsed_data * list log_record :=
  let '(s, log) := st in
  let '(line_number, l) := numbered in
  match l with
  | Undecodable => (s, log ++ [Warning line_number])
  | Decoded event_json =>
      match _parse_event event_json s with
      | (s', Ok _) => (s', log)
      | (s', Raise e) => (s', log ++ [Error line_number e])
      end
  end.

Definition number_lines (lines : list line) : list (nat * line) :=
  zip (seq 1 (length lines)) lines.

Definition parse_lines (lines : list line) (s : parsed_data) : parsed_data * list log_record :=
  foldl parse_line (s, []) (number_lines lines).

End Parser.

(** * Vocabulary of the statements on the analysis engine *)

Module EngineSpec.
Import PyFloat Engine.
Local Open Scope Z_scope.

(** The number of runs in a given result state. *)
Definition count_state (state : string) (runs : list run) : nat :=
  length (filter (λ r, result_state r = Value state) runs).

(** Descending order of a sort key. *)
Definition desc {A : Type} (key : A → Z) (a b : A) : Prop := key b ≤ key a.

Definition comparable (key : run → option Z) (runs : list run) : Prop :=
  (length runs ≤ 1)%nat ∨ Forall (λ r, is_Some (key r)) runs.

Definition durations (runs : list run) : list Z := omap (λ r, get (execution_duration r)) runs.

(** The statistics block of a non-empty list of durations. *)
Definition stats_of (L : library) (ds : list Z) : stats float :=
  Build_stats (np_min L ds) (np_max L ds) (np_mean L ds) (np_median L ds) (np_std L ds).


(** Run ids of a notable-runs list. *)
Definition ids (es : list notable_run) : list (option Z) := nr_run_id <$> es.

Definition same_runs (a b : list notable_run) : Prop := ∀ x, x ∈ ids a ↔ x ∈ ids b.

Definition disjoint_runs (a b : list notable_run) : Prop := ∀ x, x ∈ ids a → x ∉ ids b.

(** Descending order of start time, a missing start time counting as 0. *)
Definition later_first (a b : run) : Prop := default 0 (start_key b) ≤ default 0 (start_key a).

Definition mk_run (id start duration : Z) (state : string) : run :=
  {| run_id := Value id; start_time := Value start;
     execution_duration := Value duration; result_state := Value state |}.

(** The five runs of the module's own example, with whole timestamps. *)
Definition five_runs : list run :=
  [mk_run 101 1683000000000 120000 "SUCCESS";
   mk_run 102 1683086400000 180000 "SUCCESS";
   mk_run 103 1683172800000 60000 "FAILED";
   mk_run 104 1683244800000 300000 "SUCCESS";
   mk_run 105 1683255600000 240000 "CANCELED"].

Definition six_runs : list run :=
  five_runs ++ [mk_run 106 1683259200000 30000 "SUCCESS"].

(** A run whose dict has no [result_state] key. *)
Definition stateless_run : run :=
  {| run_id := Value 7; start_time := Value 1683300000000;
     execution_duration := Value 1000; result_state := Missing |}.

(** The run of the specification's example: the duration is [None]. *)
Definition run_5 : run :=
  {| run_id := Value 5; start_time := Value 0;
     execution_duration := Null; result_state := Value "SUCCESS" |}.

End EngineSpec.

(** * Vocabulary of the statements on the event-log parser *)

Module ParserSpec.
Import Parser.
Local Open Scope Z_scope.
Local Open Scope parser_scope.


(** Running [m] from [s] ends in a state related to [s], whether [m] returns
    or raises. *)
Definition keeps (R : relation parsed_data) {A} (s : parsed_data) (m : M A) : Prop :=
  R s (m s).1.

(** The event counters. *)
Definition counts_le (m m' : summary_metrics) : Prop :=
  total_jobs m ≤ total_jobs m' ∧ successful_jobs m ≤ successful_jobs m'
  ∧ failed_jobs m ≤ failed_jobs m' ∧ total_stages m ≤ total_stages m'.

(** The counters fed from numbers the events declare. *)
Definition volumes_le (m m' : summary_metrics) : Prop :=
  total_tasks m ≤ total_tasks m'
  ∧ aggregate_shuffle_read_bytes m ≤ aggregate_shuffle_read_bytes m'
  ∧ aggregate_shuffle_write_bytes m ≤ aggregate_shuffle_write_bytes m'
  ∧ aggregate_input_bytes m ≤ aggregate_input_bytes m'
  ∧ aggregate_output_bytes m ≤ aggregate_output_bytes m'.

Definition counts_grow : relation parsed_data := λ s s', counts_le (metrics s) (metrics s').
Definition all_grow : relation parsed_data := λ s s',
  counts_le (metrics s) (metrics s') ∧ volumes_le (metrics s) (metrics s').

Definition with_metrics (s : parsed_data) (m : summary_metrics) : parsed_data :=
  {| application_info := application_info s; jobs := jobs s; stages := stages s; metrics := m |}.

Definition with_jobs (s : parsed_data) (js : gmap key Job.t) : parsed_data :=
  {| application_info := application_info s; jobs := js; stages := stages s;
     metrics := metrics s |}.

Definition with_stages (s : parsed_data) (ss : gmap key Stage.t) : parsed_data :=
  {| application_info := application_info s; jobs := jobs s; stages := ss;
     metrics := metrics s |}.


Definition same_jobs : relation parsed_data := λ s s', jobs s' = jobs s.
Definition same_stages : relation parsed_data := λ s s', stages s' = stages s.

(** [d] is the difference of a completion and a submission timestamp that
    are both present as numbers. *)
Definition derived (submission : json) (completion : option json) (d : Z) : Prop :=
  ∃ sub ct ctj, as_number submission = Some sub ∧ completion = Some ctj
                ∧ as_number ctj = Some ct ∧ d = ct - sub.



(** The events of the JobStart/JobEnd example. *)
Definition job_start_1 : json :=
  JObj [("Event", JStr "SparkListenerJobStart"); ("Job ID", JInt 1);
        ("Submission Time", JInt 1000); ("Stage IDs", JList [JInt 1])].






(** A job that completes before it was submitted. *)
Definition job_end_early : json :=
  JObj [("Event", JStr "SparkListenerJobEnd"); ("Job ID", JInt 1);
        ("Completion Time", JInt 500);
        ("Job Result", JObj [("Result", JStr "JobSucceeded")])].

End ParserSpec.

(** * Binary64 arithmetic: magnitudes and signs *)

Module FloatFacts.
Import PyFloat.
Local Open Scope Z_scope.

Lemma digits2_pos_size p : digits2_pos p = Pos.size p.
Proof. induction p; simpl; congruence. Qed.

Lemma Zdigits2_log2 m : 0 < m → Zdigits2 m = Z.log2 m + 1.
Proof.
  destruct m as [|p|p]; try lia. intros _. simpl.
  rewrite digits2_pos_size. destruct p; simpl; lia.
Qed.

Lemma Zdigits2_bounds m : 0 < m → 2 ^ (Zdigits2 m - 1) ≤ m < 2 ^ Zdigits2 m.
Proof.
  intros Hm. rewrite Zdigits2_log2 by done.
  replace (Z.log2 m + 1 - 1) with (Z.log2 m) by lia.
  pose proof (Z.log2_spec m Hm). rewrite Z.add_1_r. lia.
Qed.

Lemma shr_1_m mrs : 0 ≤ shr_m mrs → shr_m (shr_1 mrs) = shr_m mrs / 2.
Proof.
  destruct mrs as [m r s]. cbn [shr_m]. intros Hm.
  destruct m as [|[p|p|]|p]; cbn [shr_1 shr_m]; try lia.
  all: first [ apply Z.div_unique with 0; lia | apply Z.div_unique with 1; lia ].
Qed.

Lemma iter_pos_shr_m p : ∀ mrs, 0 ≤ shr_m mrs →
  shr_m (SpecFloat.iter_pos shr_1 p mrs) = shr_m mrs / 2 ^ Z.pos p.
Proof.
  induction p as [p IH|p IH|]; intros mrs Hm; cbn [SpecFloat.iter_pos].
  - assert (H1: 0 ≤ shr_m (shr_1 mrs)) by (rewrite shr_1_m by done; apply Z.div_pos; lia).
    assert (H2: 0 ≤ shr_m (SpecFloat.iter_pos shr_1 p (shr_1 mrs))) by (rewrite IH by done; apply Z.div_pos; lia).
    rewrite IH, IH, shr_1_m by done.
    rewrite !Z.div_div by lia. f_equal.
    replace (Z.pos p~1) with (1 + Z.pos p + Z.pos p) by lia.
    rewrite !Z.pow_add_r by lia. lia.
  - assert (H2: 0 ≤ shr_m (SpecFloat.iter_pos shr_1 p mrs)) by (rewrite IH by done; apply Z.div_pos; lia).
    rewrite IH, IH by done. rewrite Z.div_div by lia. f_equal.
    replace (Z.pos p~0) with (Z.pos p + Z.pos p) by lia.
    rewrite Z.pow_add_r by lia. lia.
  - rewrite shr_1_m by done. reflexivity.
Qed.

Lemma fexp_eq k : fexp prec emax k = Z.max (k - 53) (-1074).
Proof. reflexivity. Qed.

Lemma shr_record_of_loc_m m l : shr_m (shr_record_of_loc m l) = m.
Proof. by destruct l as [|[]]. Qed.

Lemma shr_spec mrs e n : 0 ≤ shr_m mrs →
  shr_m (shr mrs e n).1 = shr_m mrs / 2 ^ Z.max 0 n ∧ (shr mrs e n).2 = e + Z.max 0 n.
Proof.
  intros Hm. destruct n as [|p|p]; cbn [shr fst snd].
  - rewrite Z.div_1_r. lia.
  - rewrite iter_pos_shr_m by done. split; [f_equal; f_equal|]; lia.
  - change (Z.max 0 (Z.neg p)) with 0. rewrite Z.div_1_r. lia.
Qed.

Lemma Zdigits2_div_pow2 m n : 0 < m → 0 ≤ n < Zdigits2 m →
  0 < m / 2 ^ n ∧ Zdigits2 (m / 2 ^ n) = Zdigits2 m - n.
Proof.
  intros Hm Hn. rewrite (Zdigits2_log2 m) in * by done.
  assert (Hpos: 0 < m / 2 ^ n).
  { apply Z.div_str_pos. split; [apply Z.pow_pos_nonneg; lia|].
    etrans; [|apply (Z.log2_spec m Hm)]. apply Z.pow_le_mono_r; lia. }
  split; [done|]. rewrite Zdigits2_log2 by done.
  rewrite <- Z.shiftr_div_pow2 by lia. rewrite Z.log2_shiftr by done. lia.
Qed.

Lemma round_nearest_even_bounds m l :
  0 < m → m ≤ round_nearest_even m l ≤ m + 1.
Proof. intros. destruct l as [|[]]; simpl; try lia. destruct (Z.even m); lia. Qed.

Lemma Zdigits2_mono a b : 0 < a ≤ b → Zdigits2 a ≤ Zdigits2 b.
Proof.
  intros. rewrite !Zdigits2_log2 by lia.
  pose proof (Z.log2_le_mono a b). lia.
Qed.

Lemma Zdigits2_succ a : 0 < a → Zdigits2 (a + 1) ≤ Zdigits2 a + 1.
Proof.
  intros. rewrite !Zdigits2_log2 by lia.
  pose proof (Z.log2_succ_le a). unfold Z.succ in *. lia.
Qed.

(** One pass of [shr_fexp] on a positive mantissa that is not below the
    smallest subnormal. *)
Lemma shr_fexp_pos m e l : 0 < m → -1074 < Zdigits2 m + e →
  let r := shr_fexp prec emax m e l in
  0 < shr_m r.1
  ∧ Zdigits2 (shr_m r.1) + r.2 = Zdigits2 m + e
  ∧ r.2 = Z.max e (fexp prec emax (Zdigits2 m + e)).
Proof.
  intros Hm Hd r. unfold r, shr_fexp.
  set (n := fexp prec emax (Zdigits2 m + e) - e).
  destruct (shr_spec (shr_record_of_loc m l) e n) as [-> ->];
    rewrite shr_record_of_loc_m; [lia|].
  assert (Hn: 0 ≤ Z.max 0 n < Zdigits2 m).
  { unfold n. rewrite fexp_eq. pose proof (Zdigits2_bounds m Hm). 
    assert (0 < Zdigits2 m); [|lia].
    destruct m; try lia. simpl. lia. }
  destruct (Zdigits2_div_pow2 m (Z.max 0 n) Hm Hn) as [? ->].
  split; [done|]. unfold n. lia.
Qed.

Lemma binary_round_aux_pos s m e l : 0 < m → -1074 < Zdigits2 m + e →
  (∃ m' e', binary_round_aux prec emax s m e l = S754_finite s m' e'
            ∧ Zdigits2 m + e ≤ Zdigits2 (Z.pos m') + e' ≤ Zdigits2 m + e + 1
            ∧ e' ≤ 971)
  ∨ (binary_round_aux prec emax s m e l = S754_infinity s
     ∧ (971 < e ∨ 1023 < Zdigits2 m + e)).
Proof.
  intros Hm Hd. unfold binary_round_aux.
  pose proof (shr_fexp_pos m e l Hm Hd) as H1. cbv zeta in H1.
  destruct (shr_fexp prec emax m e l) as [mrs1 e1]. cbn [fst snd] in H1.
  destruct H1 as (Hm1 & Hd1 & He1).
  pose proof (round_nearest_even_bounds (shr_m mrs1) (loc_of_shr_record mrs1) Hm1) as Hr.
  set (m1 := round_nearest_even (shr_m mrs1) (loc_of_shr_record mrs1)) in *.
  assert (Hdm1: Zdigits2 (shr_m mrs1) ≤ Zdigits2 m1 ≤ Zdigits2 (shr_m mrs1) + 1).
  { split; [apply Zdigits2_mono; lia|].
    etrans; [apply (Zdigits2_mono m1 (shr_m mrs1 + 1)); lia|]. by apply Zdigits2_succ. }
  assert (Hm1': 0 < m1) by lia.
  assert (Hd1': -1074 < Zdigits2 m1 + e1) by lia.
  pose proof (shr_fexp_pos m1 e1 loc_Exact Hm1' Hd1') as H2. cbv zeta in H2.
  destruct (shr_fexp prec emax m1 e1 loc_Exact) as [mrs2 e2]. cbn [fst snd] in H2.
  destruct H2 as (Hm2 & Hd2 & He2).
  rewrite fexp_eq in He1, He2.
  destruct (shr_m mrs2) as [|m2|] eqn:Em2; try lia.
  change (emax - prec) with 971.
  destruct (Z.leb_spec e2 971).
  - left. exists m2, e2. split; [done|]. lia.
  - right. split; [done|]. lia.
Qed.

Lemma digits2_pos_iter_xO m d :
  Z.pos (digits2_pos (Pos.iter xO m d)) = Z.pos (digits2_pos m) + Z.pos d.
Proof.
  induction d as [|d IH] using Pos.peano_ind.
  - simpl. lia.
  - rewrite Pos.iter_succ. simpl digits2_pos. lia.
Qed.

Lemma shl_align_spec mx ex ex' :
  let r := shl_align mx ex ex' in
  Zdigits2 (Z.pos r.1) + r.2 = Zdigits2 (Z.pos mx) + ex ∧ r.2 ≤ ex.
Proof.
  unfold shl_align. destruct (ex' - ex) as [|d|d] eqn:E; cbn [fst snd Zdigits2]; try lia.
  rewrite digits2_pos_iter_xO. lia.
Qed.

Lemma binary_round_pos s p e : -1074 < Zdigits2 (Z.pos p) + e →
  (∃ m' e', binary_round prec emax s p e = S754_finite s m' e'
            ∧ Zdigits2 (Z.pos p) + e ≤ Zdigits2 (Z.pos m') + e' ≤ Zdigits2 (Z.pos p) + e + 1)
  ∨ (binary_round prec emax s p e = S754_infinity s
     ∧ (971 < e ∨ 1023 < Zdigits2 (Z.pos p) + e)).
Proof.
  intros Hd. unfold binary_round.
  pose proof (shl_align_spec p e (fexp prec emax (Z.pos (digits2_pos p) + e))) as Hs.
  cbv zeta in Hs.
  destruct (shl_align p e _) as [mz ez]. cbn [fst snd] in Hs. destruct Hs as [Hs1 Hs2].
  destruct (binary_round_aux_pos s (Z.pos mz) ez loc_Exact) as [(m' & e' & -> & ? & ?)|[-> ?]];
    [lia|lia| |].
  - left. exists m', e'. split; [done|lia].
  - right. split; [done|lia].
Qed.

(** [float(z)] for a negative [z]: a negative float of magnitude at least
    one, or [OverflowError] from [2 ^ 1023] on. *)
Lemma float_of_int_neg z : z < 0 →
  (∃ m e, float_of_int z = Ok (S754_finite true m e) ∧ 1 ≤ Zdigits2 (Z.pos m) + e)
  ∨ (float_of_int z = Raise OverflowError ∧ z ≤ - 2 ^ 1023).
Proof.
  intros Hz. destruct z as [|p|p]; try lia. unfold float_of_int, of_Z, binary_normalize.
  assert (Hp: 1 ≤ Zdigits2 (Z.pos p)) by (simpl; lia).
  destruct (binary_round_pos true p 0) as [(m' & e' & -> & ? & ?)|[-> H]]; [lia| |].
  - left. exists m', e'. split; [done|lia].
  - right. split; [done|].
    assert (1023 < Zdigits2 (Z.pos p)) by lia.
    pose proof (Zdigits2_bounds (Z.pos p) ltac:(lia)) as [Hlo _].
    assert (2 ^ 1023 ≤ 2 ^ (Zdigits2 (Z.pos p) - 1)) by (apply Z.pow_le_mono_r; lia).
    lia.
Qed.

Lemma float_of_int_range z : - 2 ^ 1023 < z < 0 → returns (float_of_int z).
Proof.
  intros [Hlo Hz]. destruct (float_of_int_neg z Hz) as [(m & e & -> & _)|[_ ?]]; [|lia].
  by eexists.
Qed.

Lemma Zdigits2_lower q k : 0 ≤ k → 2 ^ k ≤ q → k + 1 ≤ Zdigits2 q.
Proof.
  intros Hk Hq. assert (0 < q) by (pose proof (Z.pow_pos_nonneg 2 k); lia).
  pose proof (Zdigits2_bounds q ltac:(done)) as [_ Hhi].
  destruct (Z.le_gt_cases (k + 1) (Zdigits2 q)); [done|].
  assert (2 ^ Zdigits2 q ≤ 2 ^ k) by (apply Z.pow_le_mono_r; lia). lia.
Qed.

(** Dividing a float of magnitude at least one by [1000.0] keeps its sign
    and does not underflow to zero. *)
Lemma div_1000_sign s m e : 1 ≤ Zdigits2 (Z.pos m) + e →
  (∃ m' e', div (S754_finite s m e) (of_Z 1000) = S754_finite s m' e')
  ∨ div (S754_finite s m e) (of_Z 1000) = S754_infinity s.
Proof.
  intros Hmag.
  change (of_Z 1000) with (S754_finite false 8796093022208000 (-43)).
  unfold div, SFdiv, SFdiv_core_binary.
  change (Zdigits2 (Z.pos 8796093022208000)) with 53.
  set (d1 := Zdigits2 (Z.pos m)) in *.
  set (e' := Z.min (fexp prec emax (d1 + e - (53 + -43))) (e - -43)).
  set (sh := e - -43 - e').
  assert (He': e' = Z.min (d1 + e - 63) (e + 43)) by (unfold e'; rewrite fexp_eq; lia).
  assert (Hsh: 0 ≤ sh) by (unfold sh; lia).
  set (m' := match sh with Z.pos _ => Z.pos m ≪ sh | 0 => Z.pos m | Z.neg _ => 0 end).
  assert (Hm': m' = Z.pos m * 2 ^ sh).
  { unfold m'. destruct sh; try lia. by rewrite Z.shiftl_mul_pow2. }
  pose proof (Zdigits2_bounds (Z.pos m) ltac:(lia)) as [Hlo _]. fold d1 in Hlo.
  assert (Hd1: 1 ≤ d1) by (unfold d1; simpl; lia).
  assert (Hbig: 53 ≤ d1 - 1 + sh) by lia.
  assert (Hm'lo: 2 ^ (d1 - 1 + sh) ≤ m').
  { rewrite Hm', Z.pow_add_r by lia. apply Z.mul_le_mono_nonneg_r; [|done].
    apply Z.pow_nonneg; lia. }
  set (m2 := 8796093022208000) in *.
  assert (Hq: 2 ^ (d1 - 1 + sh - 53) ≤ m' / m2).
  { apply Z.div_le_lower_bound; [lia|].
    etrans; [|exact Hm'lo].
    replace (d1 - 1 + sh) with (53 + (d1 - 1 + sh - 53)) at 2 by lia.
    rewrite Z.pow_add_r by lia. apply Z.mul_le_mono_nonneg_r; [apply Z.pow_nonneg; lia|].
    unfold m2. lia. }
  assert (Hk: 0 ≤ d1 - 1 + sh - 53) by lia.
  pose proof (Zdigits2_lower _ _ Hk Hq) as Hdq.
  assert (Hqpos: 0 < m' / m2).
  { pose proof (Z.pow_pos_nonneg 2 (d1 - 1 + sh - 53)). lia. }
  unfold Z.div in *. destruct (Z.div_eucl m' (m2)) as [q r]. cbn [fst] in *.
  destruct (binary_round_aux_pos (xorb s false) q e' (new_location (m2) r) Hqpos)
    as [(m'' & e'' & Heq & _)|[Heq _]].
  - unfold sh in *. lia.
  - left. exists m'', e''. rewrite Heq. by rewrite xorb_false_r.
  - right. rewrite Heq. by rewrite xorb_false_r.
Qed.

Lemma Zdigits2_nonneg m : 0 ≤ Zdigits2 m.
Proof. destruct m; simpl; lia. Qed.







End FloatFacts.

(** * The analysis engine *)

Module EngineProofs.
Import PyFloat Engine EngineSpec FloatFacts.
Local Open Scope Z_scope.

Lemma format_duration_negative_float s m e :
  s = true → 1 ≤ Zdigits2 (Z.pos m) + e →
  _format_duration (Some (PFloat (S754_finite s m e))) = Ok "Invalid duration".
Proof.
  intros -> Hmag. unfold _format_duration. cbn [to_float mbind result_bind].
  unfold float_truediv. change (is_zero (of_Z 1000)) with false. cbv iota.
  destruct (div_1000_sign true m e Hmag) as [(m' & e' & ->)| ->]; reflexivity.
Qed.

(** C3. [_format_duration] returns N/A for [None] and 0.00s for 0. For every
    negative integer number of milliseconds it returns Invalid duration,
    never a formatted value; its one other outcome, for integers at or
    below -2^1023, is the [OverflowError] of the conversion to a float. *)
Theorem format_duration_sentinels :
  _format_duration None = Ok "N/A"
  ∧ _format_duration (Some (PInt 0)) = Ok "0.00s"
  ∧ ∀ ms, ms < 0 →
      _format_duration (Some (PInt ms)) = Ok "Invalid duration"
      ∨ (ms ≤ - 2 ^ 1023 ∧ _format_duration (Some (PInt ms)) = Raise OverflowError).
Proof.
  split; [reflexivity|]. split; [vm_compute; reflexivity|].
  intros ms Hms.
  destruct (float_of_int_neg ms Hms) as [(m & e & Hf & Hmag)|[Hf Hlo]].
  - left. rewrite <- (format_duration_negative_float true m e eq_refl Hmag).
    unfold _format_duration. cbn [to_float]. by rewrite Hf.
  - right. split; [done|]. unfold _format_duration. cbn [to_float]. by rewrite Hf.
Qed.

Lemma format_duration_sentinels_witness :
  -1 < 0
  ∧ (_format_duration (Some (PInt (-1))) = Ok "Invalid duration"
     ∨ (-1 ≤ - 2 ^ 1023 ∧ _format_duration (Some (PInt (-1))) = Raise OverflowError)).
Proof.
  split; [lia|]. apply (proj2 (proj2 format_duration_sentinels) (-1)). lia.
Defined.

Lemma bind_Ok {A B} (m : result A) (k : A → result B) b :
  (m ≫= k) = Ok b ↔ ∃ a, m = Ok a ∧ k a = Ok b.
Proof.
  destruct m as [a|e]; cbn [mbind result_bind]; split.
  - eauto.
  - by intros (? & [= ->] & ?).
  - done.
  - by intros (? & ? & ?).
Qed.

Lemma fmap_Ok {A B} (f : A → B) (m : result A) b :
  f <$> m = Ok b ↔ ∃ a, m = Ok a ∧ b = f a.
Proof.
  destruct m as [a|e]; cbn [fmap result_fmap]; split.
  - intros [= <-]. eauto.
  - by intros (? & [= ->] & ->).
  - done.
  - by intros (? & ? & ?).
Qed.

Lemma Counter_foldl (k : option string) xs : ∀ c : gmap (option string) nat,
  default 0%nat (foldl (λ c x, <[x := S (default 0%nat (c !! x))]> c) c xs !! k)
  = (default 0%nat (c !! k) + length (filter (λ x, x = k) xs))%nat.
Proof.
  induction xs as [|x xs IH]; intros c; cbn [foldl].
  - simpl. lia.
  - rewrite IH. rewrite filter_cons. destruct (decide (x = k)) as [->|Hne].
    + rewrite lookup_insert_eq. simpl. lia.
    + rewrite lookup_insert_ne by done. lia.
Qed.

Lemma Counter_lookup (k : option string) xs :
  default 0%nat (Counter xs !! k) = length (filter (λ x, x = k) xs).
Proof. unfold Counter. rewrite Counter_foldl, lookup_empty. reflexivity. Qed.

Lemma filter_length_ext {A} (P Q : A → Prop) `{∀ x, Decision (P x)} `{∀ x, Decision (Q x)} l :
  (∀ x, P x ↔ Q x) → length (filter P l) = length (filter Q l).
Proof.
  intros HPQ. induction l as [|x l IH]; [done|].
  rewrite !filter_cons.
  destruct (decide (P x)) as [HP|HP], (decide (Q x)) as [HQ|HQ]; simpl; try lia.
  - by destruct HQ; apply HPQ.
  - by destruct HP; apply HPQ.
Qed.

Lemma filter_fmap_length {A B} (f : A → B) (P : B → Prop) `{∀ x, Decision (P x)} l :
  length (filter P (f <$> l)) = length (filter (λ x, P (f x)) l).
Proof.
  induction l as [|x l IH]; [done|]. rewrite fmap_cons, !filter_cons.
  destruct (decide (P (f x))); simpl; lia.
Qed.

Lemma Counter_success runs :
  default 0%nat (Counter (map (λ r, get_default (result_state r) "UNKNOWN") runs) !! Some "SUCCESS")
  = count_state "SUCCESS" runs.
Proof.
  rewrite Counter_lookup. unfold count_state.
  change (map ?f runs) with (f <$> runs).
  rewrite (filter_fmap_length (λ r, get_default (result_state r) "UNKNOWN")).
  apply filter_length_ext. intros r. destruct (result_state r); simpl; split; congruence.
Qed.

Section Sorting.
Context {A : Type} (key : A → Z).

Lemma insert_desc_Permutation x xs : insert_desc key x xs ≡ₚ x :: xs.
Proof.
  induction xs as [|y xs IH]; cbn [insert_desc]; [done|].
  destruct (key x <? key y); [|done]. rewrite IH. apply Permutation_swap.
Qed.

Lemma sort_desc_Permutation xs : sort_desc key xs ≡ₚ xs.
Proof.
  induction xs as [|x xs IH]; [done|]. unfold sort_desc in *. cbn [foldr].
  rewrite insert_desc_Permutation. by rewrite IH.
Qed.

Lemma sort_desc_length xs : length (sort_desc key xs) = length xs.
Proof. by rewrite sort_desc_Permutation. Qed.

Lemma insert_desc_sorted x xs :
  StronglySorted (desc key) xs → StronglySorted (desc key) (insert_desc key x xs).
Proof.
  induction 1 as [|y xs Hs IH Hy]; cbn [insert_desc].
  - repeat constructor.
  - destruct (Z.ltb_spec (key x) (key y)).
    + constructor; [done|]. rewrite insert_desc_Permutation.
      constructor; [unfold desc; lia|done].
    + constructor; [by constructor|]. constructor; [done|].
      eapply Forall_impl; [exact Hy|]. unfold desc. intros; simpl in *; lia.
Qed.

Lemma sort_desc_sorted xs : StronglySorted (desc key) (sort_desc key xs).
Proof.
  induction xs as [|x xs IH]; [constructor|]. unfold sort_desc in *. cbn [foldr].
  by apply insert_desc_sorted.
Qed.
End Sorting.

Lemma sorted_reverse_Ok {A} (key : A → option Z) xs ys :
  sorted_reverse key xs = Ok ys →
  ys = sort_desc (λ x, default 0 (key x)) xs
  ∧ ((length xs ≤ 1)%nat ∨ Forall (λ x, is_Some (key x)) xs).
Proof.
  unfold sorted_reverse. case_bool_decide as Hlen; cbn [andb].
  - destruct (forallb _ xs) eqn:Hall; cbn [negb]; [|done]. intros [= <-]. split; [done|].
    right. apply Forall_forall. intros x Hx.
    rewrite forallb_forall in Hall. apply list_elem_of_In, Hall in Hx.
    by apply bool_decide_eq_true in Hx.
  - intros [= <-]. split; [done|]. left. lia.
Qed.


Section Loop.
Variable L : library.

Lemma mapM_app_Ok {A B} (f : A → result B) xs ys :
  mapM f (xs ++ ys) = (bs ← mapM f xs; cs ← mapM f ys; Ok (bs ++ cs)).
Proof.
  induction xs as [|x xs IH]; cbn [mapM app mbind result_bind mret result_ret].
  - destruct (mapM f ys); reflexivity.
  - destruct (f x); cbn [mbind result_bind]; [|done]. rewrite IH.
    destruct (mapM f xs); cbn [mbind result_bind]; [|done].
    destruct (mapM f ys); reflexivity.
Qed.

Lemma recent_failures_loop_spec xs : ∀ acc n, (n ≤ 3)%nat →
  recent_failures_loop L xs acc n
  = (es ← mapM (notable_entry L) (take (3 - n) (filter (λ r, failure_candidate r = true) xs));
     Ok (acc ++ es)).
Proof.
  induction xs as [|x xs IH]; intros acc n Hn; cbn [recent_failures_loop].
  - rewrite filter_nil, take_nil. cbn. by rewrite app_nil_r.
  - rewrite filter_cons. destruct (failure_candidate x) eqn:Hx.
    + rewrite decide_True by (simpl; congruence). destruct (Nat.ltb_spec n 3).
      * replace (3 - n)%nat with (S (3 - S n)) by lia. cbn [take mapM].
        destruct (notable_entry L x) as [e|]; cbn [mbind result_bind]; [|done].
        rewrite IH by lia. destruct (mapM _ _); cbn [mbind result_bind mret result_ret]; [|done].
        by rewrite <- app_assoc.
      * replace (3 - n)%nat with 0%nat by lia. cbn. by rewrite app_nil_r.
    + rewrite decide_False by (simpl; congruence). by apply IH.
Qed.
End Loop.

Section Inversion.
Variable L : library.

Lemma analyze_inv runs rep :
  analyze_run_history L (Some runs) = Ok (Some rep) →
  runs ≠ []
  ∧ (∃ q, int_truediv (Z.of_nat (count_state "SUCCESS" runs)) (Z.of_nat (length runs)) = Ok q
          ∧ success_rate_percent rep = format_2f (mul q (of_Z 100)) +:+ "%")
  ∧ total_runs_analyzed rep = length runs
  ∧ status_counts rep = Counter (map (λ r, get_default (result_state r) "UNKNOWN") runs)
  ∧ comparable duration_key runs
  ∧ comparable start_key runs
  ∧ first_three L (sort_desc (λ r, default 0 (duration_key r)) runs) = Ok (longest rep)
  ∧ first_three L (reverse (sort_desc (λ r, default 0 (duration_key r)) runs)) = Ok (shortest rep)
  ∧ recent_failures_loop L (sort_desc (λ r, default 0 (start_key r)) runs) [] 0
    = Ok (recent_failures rep)
  ∧ duration_stats_ms rep
    = (if bool_decide (durations runs = []) then None else Some (stats_of L (durations runs)))
  ∧ (duration_stats_str rep = None ↔ durations runs = []).
Proof.
  intros H. destruct runs as [|r0 runs']; [done|]. split; [done|].
  unfold analyze_run_history in H.
  set (runs := r0 :: runs') in *.
  rewrite Counter_success in H.
  apply bind_Ok in H as (rate & Hrate & H).
  unfold success_rate_of in Hrate.
  change (0 <? length runs)%nat with true in Hrate. cbv iota in Hrate.
  apply bind_Ok in Hrate as (q & Hq & [= <-]).
  apply bind_Ok in H as (pstart & _ & H).
  apply bind_Ok in H as (pend & _ & H).
  apply bind_Ok in H as (rate_str & Hstr & H).
  apply fmap_Ok in Hstr as (? & [= <-] & ->).
  apply bind_Ok in H as ([sms sstr] & Hstats & H).
  apply bind_Ok in H as (by_dur & Hdur & H).
  apply bind_Ok in H as (lg & Hlg & H).
  apply bind_Ok in H as (sh & Hsh & H).
  apply bind_Ok in H as (by_time & Htime & H).
  apply bind_Ok in H as (fl & Hfl & H).
  injection H as <-. cbn [success_rate_percent total_runs_analyzed status_counts longest
    shortest recent_failures duration_stats_ms duration_stats_str].
  apply sorted_reverse_Ok in Hdur as [-> Hcd].
  apply sorted_reverse_Ok in Htime as [-> Hct].
  split; [by exists q|]. do 7 (split; [done|]).
  fold (durations runs) in Hstats. unfold duration_stats in Hstats.
  destruct (durations runs) as [|d ds] eqn:Ed.
  - injection Hstats as <- <-. by rewrite bool_decide_eq_true_2.
  - repeat (apply bind_Ok in Hstats as (? & _ & Hstats)).
    injection Hstats as <- <-. rewrite bool_decide_eq_false_2 by done. split; [done|].
    split; done.
Qed.
End Inversion.






Lemma mapM_length {A B} (f : A → result B) xs ys :
  mapM f xs = Ok ys → length ys = length xs.
Proof.
  revert ys. induction xs as [|x xs IH]; intros ys; cbn [mapM].
  - by intros [= <-].
  - intros H. apply bind_Ok in H as (b & _ & H). apply bind_Ok in H as (bs & Hbs & [= <-]).
    cbn [length]. f_equal. by apply IH.
Qed.

Lemma mapM_Forall2 {A B} (f : A → result B) xs ys :
  mapM f xs = Ok ys → Forall2 (λ x y, f x = Ok y) xs ys.
Proof.
  revert ys. induction xs as [|x xs IH]; intros ys; cbn [mapM].
  - intros [= <-]. constructor.
  - intros H. apply bind_Ok in H as (b & Hb & H). apply bind_Ok in H as (bs & Hbs & [= <-]).
    constructor; [done|]. by apply IH.
Qed.

Section Returns.
Variable L : library.






End Returns.

Lemma StronglySorted_sublist {A} (R : A → A → Prop) k l :
  k `sublist_of` l → StronglySorted R l → StronglySorted R k.
Proof.
  induction 1 as [|x k l Hsub IH|x k l Hsub IH]; intros Hs.
  - constructor.
  - apply StronglySorted_cons in Hs as [Hx Hs]. constructor; [by apply IH|].
    apply Forall_forall. intros y Hy. rewrite Forall_forall in Hx.
    apply Hx. by eapply elem_of_sublist.
  - apply StronglySorted_cons in Hs as [_ Hs]. by apply IH.
Qed.

(** Positions in the first three and in the last three of a list without
    duplicates. *)
Section FirstLast.
Context {A : Type}.
Implicit Types l : list A.

Lemma elem_of_take_reverse x n l :
  x ∈ take n (reverse l) ↔ ∃ j, l !! j = Some x ∧ (length l - n ≤ j)%nat.
Proof.
  rewrite take_reverse, elem_of_reverse, list_elem_of_lookup. split.
  - intros [i Hi]. rewrite lookup_drop in Hi. exists (length l - n + i)%nat. split; [done|lia].
  - intros (j & Hj & Hle). exists (j - (length l - n))%nat. rewrite lookup_drop.
    by replace (length l - n + (j - (length l - n)))%nat with j by lia.
Qed.

Lemma same_ends_iff l : NoDup l →
  (∀ x, x ∈ take 3 l ↔ x ∈ take 3 (reverse l)) ↔ (length l ≤ 3)%nat.
Proof.
  intros Hnd. split.
  - intros Heq. destruct (decide (length l ≤ 3)%nat) as [|Hgt]; [done|]. exfalso.
    destruct l as [|x l']; [simpl in *; lia|].
    assert (Hx: x ∈ take 3 (reverse (x :: l'))).
    { apply Heq, elem_of_take. exists 0%nat. split; [done|lia]. }
    apply elem_of_take_reverse in Hx as (j & Hj & Hle).
    assert (j = 0%nat) by (by eapply (NoDup_lookup (x :: l'))). simpl in *. lia.
  - intros Hle x. rewrite elem_of_take, elem_of_take_reverse. split.
    + intros (i & Hi & _). exists i. split; [done|lia].
    + intros (j & Hj & _). exists j. split; [done|]. apply lookup_lt_Some in Hj. lia.
Qed.

Lemma disjoint_ends_iff l : l ≠ [] → NoDup l →
  (∀ x, x ∈ take 3 l → x ∉ take 3 (reverse l)) ↔ (6 ≤ length l)%nat.
Proof.
  intros Hne Hnd. split.
  - intros Hdis. destruct (decide (6 ≤ length l)%nat) as [|Hlt]; [done|]. exfalso.
    assert (Hk: (length l - 3 < length l)%nat) by (destruct l; [done|simpl; lia]).
    apply lookup_lt_is_Some in Hk as [x Hx].
    apply (Hdis x).
    + apply elem_of_take. exists (length l - 3)%nat. split; [done|lia].
    + apply elem_of_take_reverse. exists (length l - 3)%nat. split; [done|lia].
  - intros Hlen x Hin Hin'. apply elem_of_take in Hin as (i & Hi & Hlt).
    apply elem_of_take_reverse in Hin' as (j & Hj & Hle).
    assert (i = j) by (by eapply NoDup_lookup). lia.
Qed.
End FirstLast.

Section Claims.
Variable L : library.

Lemma notable_entry_fields r e :
  notable_entry L r = Ok e →
  nr_run_id e = get (run_id r) ∧ nr_result_state e = get (result_state r).
Proof.
  unfold notable_entry. intros H. apply bind_Ok in H as (d & _ & H).
  apply bind_Ok in H as (t & _ & [= <-]). done.
Qed.

Lemma entries_ids rs es :
  Forall2 (λ r e, notable_entry L r = Ok e) rs es → ids es = (λ r, get (run_id r)) <$> rs.
Proof.
  induction 1 as [|r e rs es He _ IH]; [done|]. unfold ids in *. cbn [fmap list_fmap].
  rewrite IH. f_equal. by apply notable_entry_fields in He as [-> _].
Qed.

Lemma take_min_length {A} (xs : list A) : take (3 `min` length xs)%nat xs = take 3 xs.
Proof.
  destruct (Nat.min_spec 3 (length xs)) as [[_ ->]|[Hle ->]]; [done|].
  by rewrite !take_ge by lia.
Qed.

Lemma first_three_inv xs es :
  first_three L xs = Ok es →
  Forall2 (λ r e, notable_entry L r = Ok e) (take 3 xs) es
  ∧ length es = (3 `min` length xs)%nat.
Proof.
  unfold first_three. rewrite take_min_length. intros H. split.
  - by apply mapM_Forall2.
  - apply mapM_length in H. rewrite H, length_take. done.
Qed.

Lemma recent_failures_inv xs es :
  recent_failures_loop L xs [] 0 = Ok es →
  Forall2 (λ r e, notable_entry L r = Ok e)
    (take 3 (filter (λ r, failure_candidate r = true) xs)) es.
Proof.
  rewrite recent_failures_loop_spec by lia. intros H.
  apply bind_Ok in H as (es' & H & [= <-]). by apply mapM_Forall2.
Qed.

Lemma failure_candidate_spec r :
  failure_candidate r = true ↔
  get (result_state r) ≠ Some "SUCCESS" ∧ get (result_state r) ≠ Some "UNKNOWN".
Proof.
  unfold failure_candidate. rewrite andb_true_iff, !bool_decide_eq_true. done.
Qed.


(** C6. In every report, recent_failures holds the entries of the first
    three failure candidates among the runs sorted by start time descending:
    it has at most 3 entries, they follow the descending order of start
    time, and none has result_state SUCCESS or UNKNOWN. *)
Theorem recent_failures_ranking runs rep :
  analyze_run_history L (Some runs) = Ok (Some rep) →
  ∃ by_time selected,
    by_time ≡ₚ runs
    ∧ StronglySorted later_first by_time
    ∧ selected = take 3 (filter (λ r, failure_candidate r = true) by_time)
    ∧ Forall2 (λ r e, notable_entry L r = Ok e) selected (recent_failures rep)
    ∧ StronglySorted later_first selected
    ∧ (length (recent_failures rep) ≤ 3)%nat
    ∧ Forall (λ e, nr_result_state e ≠ Some "SUCCESS" ∧ nr_result_state e ≠ Some "UNKNOWN")
        (recent_failures rep).
Proof.
  intros H. apply analyze_inv in H as (_ & _ & _ & _ & _ & _ & _ & _ & Hloop & _).
  apply recent_failures_inv in Hloop.
  set (by_time := sort_desc (λ r, default 0 (start_key r)) runs) in *.
  exists by_time, (take 3 (filter (λ r, failure_candidate r = true) by_time)).
  assert (Hsorted: StronglySorted later_first by_time) by apply sort_desc_sorted.
  split; [apply sort_desc_Permutation|]. split; [done|]. split; [done|]. split; [done|].
  split; [|split].
  - eapply StronglySorted_sublist; [|exact Hsorted].
    etrans; [apply sublist_take|apply sublist_filter].
  - apply Forall2_length in Hloop. rewrite <- Hloop, length_take. lia.
  - apply Forall_forall. intros e He.
    apply list_elem_of_lookup in He as [i He].
    destruct (Forall2_lookup_r _ _ _ _ _ Hloop He) as (r & Hr & Hre).
    apply notable_entry_fields in Hre as [_ ->].
    apply list_elem_of_lookup_2, elem_of_take in Hr as (j & Hj & _).
    apply list_elem_of_lookup_2, list_elem_of_filter in Hj as [Hc _].
    by apply failure_candidate_spec.
Qed.

(** C7, with the overlap of the two lists as the code has it. In every
    report the longest and the shortest list have min(3, n) entries each,
    hence at most 3, where n is the number of runs; when the run ids are
    pairwise distinct, the two lists hold the same runs exactly when n <= 3
    and have no run in common exactly when n >= 6. *)
Theorem notable_runs_overlap runs rep :
  analyze_run_history L (Some runs) = Ok (Some rep) →
  (length (longest rep) ≤ 3)%nat
  ∧ (length (shortest rep) ≤ 3)%nat
  ∧ length (longest rep) = (3 `min` length runs)%nat
  ∧ length (shortest rep) = (3 `min` length runs)%nat
  ∧ (NoDup ((λ r, get (run_id r)) <$> runs) →
       (same_runs (longest rep) (shortest rep) ↔ (length runs ≤ 3)%nat)
       ∧ (disjoint_runs (longest rep) (shortest rep) ↔ (6 ≤ length runs)%nat)).
Proof.
  intros H. apply analyze_inv in H as (Hne & _ & _ & _ & _ & _ & Hlong & Hshort & _).
  set (s := sort_desc (λ r, default 0 (duration_key r)) runs) in *.
  assert (Hperm: s ≡ₚ runs) by apply sort_desc_Permutation.
  apply first_three_inv in Hlong as [Hl Hll], Hshort as [Hs Hsl].
  rewrite length_reverse in Hsl. rewrite Hperm in Hll, Hsl.
  split; [lia|]. split; [lia|]. split; [done|]. split; [done|].
  intros Hnd. unfold same_runs, disjoint_runs.
  rewrite (entries_ids _ _ Hl), (entries_ids _ _ Hs), !fmap_take, fmap_reverse.
  set (l := (λ r, get (run_id r)) <$> s).
  assert (Hndl: NoDup l) by (unfold l; by rewrite Hperm).
  assert (Hlen: length l = length runs) by (unfold l; by rewrite length_fmap, Hperm).
  rewrite <- Hlen. split; [by apply same_ends_iff|].
  apply disjoint_ends_iff; [|done]. intros ->. destruct runs; [done|simpl in *; lia].
Qed.

(** C10. In every report on a list that holds a run without a result_state
    key: the histogram count of UNKNOWN is the number of runs in state
    UNKNOWN plus the number of runs without the key, hence at least 1; the
    run is a failure candidate; and when the list has at most three
    candidates, the entry of the run is in recent_failures, its result_state
    being [None]. *)
Theorem missing_result_state runs rep r :
  analyze_run_history L (Some runs) = Ok (Some rep) →
  r ∈ runs → result_state r = Missing →
  default 0%nat (status_counts rep !! Some "UNKNOWN")
    = (count_state "UNKNOWN" runs + length (filter (λ r, result_state r = Missing) runs))%nat
  ∧ (1 ≤ default 0%nat (status_counts rep !! Some "UNKNOWN"))%nat
  ∧ failure_candidate r = true
  ∧ ((length (filter (λ r, failure_candidate r = true) runs) ≤ 3)%nat →
     ∃ e, e ∈ recent_failures rep ∧ notable_entry L r = Ok e ∧ nr_result_state e = None).
Proof.
  intros H Hr Hmiss.
  apply analyze_inv in H as (_ & _ & _ & Hcounts & _ & _ & _ & _ & Hloop & _).
  assert (Hcount: default 0%nat (status_counts rep !! Some "UNKNOWN")
    = (count_state "UNKNOWN" runs + length (filter (λ r, result_state r = Missing) runs))%nat).
  { rewrite Hcounts, Counter_lookup. unfold count_state.
    change (map ?f runs) with (f <$> runs).
    rewrite (filter_fmap_length (λ r, get_default (result_state r) "UNKNOWN")).
    clear. induction runs as [|x xs IH]; [done|]. rewrite !filter_cons.
    destruct (result_state x) as [| |st] eqn:E; cbn [get_default].
    - rewrite decide_True by done. rewrite decide_False by done. rewrite decide_True by done.
      cbn [length]. lia.
    - rewrite decide_False by done. rewrite decide_False by done. rewrite decide_False by done.
      done.
    - destruct (decide (st = "UNKNOWN")) as [->|Hne].
      + rewrite decide_True by done. rewrite decide_True by done. rewrite decide_False by done.
        cbn [length]. lia.
      + rewrite decide_False by congruence. rewrite decide_False by congruence.
        rewrite decide_False by done. done. }
  assert (Hcand: failure_candidate r = true).
  { apply failure_candidate_spec. by rewrite Hmiss. }
  split; [done|]. split; [|split; [done|]].
  - rewrite Hcount. assert (r ∈ filter (λ r, result_state r = Missing) runs)
      by (by apply list_elem_of_filter).
    destruct (filter (λ r, result_state r = Missing) runs); [by apply elem_of_nil in H|].
    cbn [length]. lia.
  - intros Hfew. apply recent_failures_inv in Hloop.
    set (by_time := sort_desc (λ r, default 0 (start_key r)) runs) in *.
    assert (Hperm: by_time ≡ₚ runs) by apply sort_desc_Permutation.
    rewrite take_ge in Hloop by (by rewrite Hperm).
    assert (Hin: r ∈ filter (λ r, failure_candidate r = true) by_time).
    { apply list_elem_of_filter. by rewrite Hperm. }
    apply list_elem_of_lookup in Hin as [i Hi].
    destruct (Forall2_lookup_l _ _ _ _ _ Hloop Hi) as (e & He & Hre).
    exists e. split; [by eapply list_elem_of_lookup_2|]. split; [done|].
    apply notable_entry_fields in Hre as [_ ->]. by rewrite Hmiss.
Qed.
End Claims.

(** ** Concrete histories *)


Lemma five_runs_comparable key :
  (∀ r, r ∈ five_runs → is_Some (key r)) → comparable key five_runs.
Proof. intros H. right. by apply Forall_forall. Qed.


Lemma five_runs_report : ∃ rep, analyze_run_history Reference.lib (Some five_runs) = Ok (Some rep).
Proof. eexists. vm_compute. reflexivity. Qed.

Lemma recent_failures_ranking_witness :
  ∃ rep by_time selected,
    analyze_run_history Reference.lib (Some five_runs) = Ok (Some rep)
    ∧ by_time ≡ₚ five_runs
    ∧ StronglySorted later_first by_time
    ∧ selected = take 3 (filter (λ r, failure_candidate r = true) by_time)
    ∧ Forall2 (λ r e, notable_entry Reference.lib r = Ok e) selected (recent_failures rep)
    ∧ StronglySorted later_first selected
    ∧ (length (recent_failures rep) ≤ 3)%nat
    ∧ Forall (λ e, nr_result_state e ≠ Some "SUCCESS" ∧ nr_result_state e ≠ Some "UNKNOWN")
        (recent_failures rep).
Proof.
  destruct five_runs_report as [rep Hrep].
  destruct (recent_failures_ranking Reference.lib five_runs rep Hrep) as (by_time & selected & H).
  exists rep, by_time, selected. split; [exact Hrep|exact H].
Defined.

Lemma six_runs_report : ∃ rep, analyze_run_history Reference.lib (Some six_runs) = Ok (Some rep).
Proof. eexists. vm_compute. reflexivity. Qed.

Lemma six_runs_ids : NoDup ((λ r, get (run_id r)) <$> six_runs).
Proof. apply (bool_decide_unpack _). vm_compute. reflexivity. Qed.

Lemma notable_runs_overlap_witness :
  ∃ rep,
    analyze_run_history Reference.lib (Some six_runs) = Ok (Some rep)
    ∧ NoDup ((λ r, get (run_id r)) <$> six_runs)
    ∧ (length (longest rep) ≤ 3)%nat
    ∧ (length (shortest rep) ≤ 3)%nat
    ∧ (same_runs (longest rep) (shortest rep) ↔ (length six_runs ≤ 3)%nat)
    ∧ (disjoint_runs (longest rep) (shortest rep) ↔ (6 ≤ length six_runs)%nat).
Proof.
  destruct six_runs_report as [rep Hrep].
  destruct (notable_runs_overlap Reference.lib six_runs rep Hrep) as (Hl & Hs & _ & _ & H).
  exists rep. split; [exact Hrep|]. split; [exact six_runs_ids|].
  split; [exact Hl|]. split; [exact Hs|]. exact (H six_runs_ids).
Defined.

(** Six runs: the three longest and the three shortest have no run in
    common, although there are more than three runs. *)
Lemma notable_runs_overlap_counterexample :
  ∃ rep,
    analyze_run_history Reference.lib (Some six_runs) = Ok (Some rep)
    ∧ (disjoint_runs (longest rep) (shortest rep) ∨ same_runs (longest rep) (shortest rep))
    ∧ ¬ (length six_runs ≤ 3)%nat.
Proof.
  eexists. split; [vm_compute; reflexivity|]. split; [|vm_compute; lia].
  left. intros x Hx Hx'. vm_compute in Hx, Hx'.
  repeat (apply elem_of_cons in Hx as [->|Hx]);
    [..|by apply elem_of_nil in Hx];
    repeat (apply elem_of_cons in Hx' as [?|Hx']); try discriminate;
    by apply elem_of_nil in Hx'.
Qed.

Lemma missing_result_state_witness :
  ∃ rep e,
    analyze_run_history Reference.lib (Some (stateless_run :: five_runs)) = Ok (Some rep)
    ∧ default 0%nat (status_counts rep !! Some "UNKNOWN") = 1%nat
    ∧ failure_candidate stateless_run = true
    ∧ e ∈ recent_failures rep
    ∧ notable_entry Reference.lib stateless_run = Ok e
    ∧ nr_result_state e = None.
Proof.
  assert (Hrep: ∃ rep, analyze_run_history Reference.lib (Some (stateless_run :: five_runs))
                       = Ok (Some rep)) by (eexists; vm_compute; reflexivity).
  destruct Hrep as [rep Hrep].
  destruct (missing_result_state Reference.lib (stateless_run :: five_runs) rep stateless_run Hrep)
    as (Hcount & _ & Hcand & Hin); [left|reflexivity|].
  destruct Hin as (e & He & Hentry & Hstate); [vm_compute; lia|].
  exists rep, e. split; [exact Hrep|]. split; [rewrite Hcount; vm_compute; reflexivity|].
  repeat split; assumption.
Defined.

(** C9. On the run of the example (run 5, start time 0, execution_duration
    [None], state SUCCESS) next to a run that has a duration,
    [analyze_run_history] raises [TypeError]: no report comes back, so
    neither statistics nor counts. *)
Theorem null_duration_raises :
  analyze_run_history Reference.lib (Some [run_5; mk_run 6 1000 60000 "SUCCESS"])
  = Raise TypeError.
Proof. vm_compute. reflexivity. Qed.

Lemma null_duration_no_report L runs :
  (2 ≤ length runs)%nat → (∃ r, r ∈ runs ∧ execution_duration r = Null) →
  ∃ e, analyze_run_history L (Some runs) = Raise e.
Proof.
  intros Hlen (r & Hr & Hnull).
  destruct (analyze_run_history L (Some runs)) as [[rep|]|e] eqn:E; [| |by eexists].
  - apply analyze_inv in E as (_ & _ & _ & _ & [?|Hall] & _); [lia|].
    rewrite Forall_forall in Hall. specialize (Hall r Hr).
    unfold duration_key in Hall. rewrite Hnull in Hall. by destruct Hall.
  - destruct runs as [|r0 runs']; [simpl in Hlen; lia|].
    unfold analyze_run_history in E.
    repeat (apply bind_Ok in E as (? & _ & E)).
    match type of E with (let '(_, _) := ?p in _) = _ => destruct p end.
    repeat (apply bind_Ok in E as (? & _ & E)). discriminate.
Qed.

(** With the key left out instead, the run stays out of the statistics and
    in the counts. *)
Lemma missing_duration_excluded L runs rep :
  analyze_run_history L (Some runs) = Ok (Some rep) →
  total_runs_analyzed rep = length runs
  ∧ duration_stats_ms rep
    = (if bool_decide (durations runs = []) then None else Some (stats_of L (durations runs)))
  ∧ (duration_stats_str rep = None ↔ durations runs = [])
  ∧ ∀ r, r ∈ runs → get (execution_duration r) = None →
         (length (durations runs) < length runs)%nat.
Proof.
  intros H. apply analyze_inv in H as (_ & _ & Htotal & _ & _ & _ & _ & _ & _ & Hms & Hstr).
  split; [done|]. split; [done|]. split; [done|].
  intros r Hr Hnone. clear -Hr Hnone. unfold durations.
  assert (Hle: ∀ xs : list run,
             (length (omap (λ r, get (execution_duration r)) xs) ≤ length xs)%nat).
  { induction xs as [|x xs IH]; [done|]. cbn.
    destruct (get (execution_duration x)); cbn; lia. }
  induction runs as [|x xs IH]; [by apply elem_of_nil in Hr|].
  cbn. apply elem_of_cons in Hr as [<-|Hr].
  - rewrite Hnone. specialize (Hle xs). lia.
  - specialize (IH Hr). destruct (get (execution_duration x)); cbn; lia.
Qed.

End EngineProofs.

(** * The event-log parser *)

Module ParserProofs.
Import Parser ParserSpec.
Local Open Scope Z_scope.
Local Open Scope parser_scope.







(** ** Relations kept by every statement of an update *)
Section Keeps.
Variable R : relation parsed_data.
Hypothesis R_preorder : PreOrder R.
#[local] Existing Instance R_preorder.

Lemma keeps_ret {A} s (a : A) : keeps R s (ret a).
Proof. unfold keeps. done. Qed.

Lemma keeps_lift {A} s (r : result A) : keeps R s (lift r).
Proof. unfold keeps. done. Qed.

Lemma keeps_bind {A B} s (m : M A) (k : A → M B) :
  keeps R s m → (∀ s' a, m s = (s', Ok a) → R s s' → keeps R s' (k a)) → keeps R s (bind m k).
Proof.
  unfold keeps, bind. intros Hm Hk. destruct (m s) as [s' [a|e]]; [|done].
  cbn [fst] in Hm. etrans; [exact Hm|]. by apply Hk.
Qed.

Lemma keeps_bind_lift {A B} s (r : result A) (k : A → M B) :
  (∀ a, r = Ok a → keeps R s (k a)) → keeps R s (bind (lift r) k).
Proof.
  intros Hk. apply keeps_bind; [apply keeps_lift|].
  intros s' a [= <- ->] _. by apply Hk.
Qed.

Lemma keeps_bind_read {B} s (k : parsed_data → M B) :
  keeps R s (k s) → keeps R s (bind read k).
Proof.
  intros Hk. apply keeps_bind; [unfold keeps; simpl; reflexivity|].
  by intros s' a [= <- <-] _.
Qed.

Lemma keeps_modify s f : R s (f s) → keeps R s (modify f).
Proof. done. Qed.

Lemma keeps_bind_modify {B} s f (k : unit → M B) :
  R s (f s) → keeps R (f s) (k tt) → keeps R s (bind (modify f) k).
Proof. intros Hf Hk. apply keeps_bind; [exact Hf|]. by intros s' [] [= <-] _. Qed.

Lemma keeps_for_each {A} (body : A → M unit) xs :
  (∀ s x, x ∈ xs → keeps R s (body x)) → ∀ s, keeps R s (for_each xs body).
Proof.
  induction xs as [|x xs IH]; intros Hbody s; cbn [for_each]; [apply keeps_ret|].
  apply keeps_bind; [apply Hbody; left|]. intros s' [] _ _. apply IH.
  intros s'' y Hy. apply Hbody. by right.
Qed.
End Keeps.



Ltac grow_simpl :=
  unfold keeps, counts_grow, all_grow, counts_le, volumes_le,
    add_to, set_metrics, set_jobs, set_stages, set_application_info,
    update_job, update_stage, job_at, stage_at, bind, read, modify, lift, ret, iadd;
  intros; cbn.

Section Growth.
Variable R : relation parsed_data.
Hypothesis R_preorder : PreOrder R.
Hypothesis R_maps : ∀ s a js ss, R s s →
  R s {| application_info := a; jobs := js; stages := ss; metrics := metrics s |}.
#[local] Existing Instance R_preorder.







End Growth.














(** ** Running the statements one at a time *)

Lemma bind_run {A B} (m : M A) (k : A → M B) s s' a :
  m s = (s', Ok a) → bind m k s = k a s'.
Proof. unfold bind. by intros ->. Qed.

Lemma bind_raise {A B} (m : M A) (k : A → M B) s s' e :
  m s = (s', Raise e) → bind m k s = (s', Raise e).
Proof. unfold bind. by intros ->. Qed.

Lemma bind_lift_run {A B} (r : result A) (k : A → M B) s a :
  r = Ok a → bind (lift r) k s = k a s.
Proof. by intros ->. Qed.

Lemma bind_lift_raise {A B} (r : result A) (k : A → M B) s e :
  r = Raise e → bind (lift r) k s = (s, Raise e).
Proof. by intros ->. Qed.


Ltac run_lift :=
  match goal with
  | |- context [bind (lift (Ok ?a)) ?k ?s] =>
      change (bind (lift (Ok a)) k s) with (k a s); cbv beta
  end.

Lemma job_at_run s k j : jobs s !! k = Some j → job_at k s = (s, Ok j).
Proof. unfold job_at, bind, read. cbn. by intros ->. Qed.

Lemma update_job_run s k j f :
  jobs s !! k = Some j → update_job k f s = (with_jobs s (<[k := f j]> (jobs s)), Ok tt).
Proof. intros H. unfold update_job. rewrite (bind_run _ _ _ _ _ (job_at_run s k j H)). done. Qed.

Lemma stage_at_run s k g : stages s !! k = Some g → stage_at k s = (s, Ok g).
Proof. unfold stage_at, bind, read. cbn. by intros ->. Qed.

Lemma update_stage_run s k g f :
  stages s !! k = Some g →
  update_stage k f s = (with_stages s (<[k := f g]> (stages s)), Ok tt).
Proof. intros H. unfold update_stage. rewrite (bind_run _ _ _ _ _ (stage_at_run s k g H)). done. Qed.

Lemma add_to_one_run counter store s :
  add_to counter store (JInt 1) s
  = (with_metrics s (store (counter (metrics s) + 1) (metrics s)), Ok tt).
Proof. done. Qed.

Lemma parse_event_dispatch_job_end e s :
  dict_get e "Event" = Ok (JStr "SparkListenerJobEnd") →
  _parse_event e s = parse_job_end e s.
Proof. intros H. unfold _parse_event. by rewrite (bind_lift_run _ _ _ _ H). Qed.

Lemma dict_get_default_Ok_inv v k d a :
  dict_get_default v k d = Ok a → ∃ kvs, v = JObj kvs ∧ a = default d (assoc k kvs).
Proof. destruct v; try done. intros [= <-]. eauto. Qed.

Lemma bind_assoc {A B C} (m : M A) (f : A → M B) (g : B → M C) s :
  bind (bind m f) g s = bind m (λ x, bind (f x) g) s.
Proof. unfold bind. destruct (m s) as [s' [a|e]]; [|done]. done. Qed.

Lemma bind_ret_run {A B} (a : A) (k : A → M B) s : bind (ret a) k s = k a s.
Proof. done. Qed.

Ltac lookup_solve :=
  cbn [jobs stages with_jobs with_stages with_metrics];
  first [eassumption | apply lookup_insert_eq].

Ltac norm :=
  cbn [fst snd dict_get dict_get_default jobs stages metrics application_info
       with_jobs with_stages with_metrics
       Job.job_id Job.submission_time Job.stage_ids Job.status Job.completion_time
       Job.result Job.duration_ms Job.set_completion_time Job.set_result Job.set_status
       Job.set_duration_ms
       Stage.stage_id Stage.name Stage.submission_time Stage.num_tasks Stage.details
       Stage.completion_time Stage.status Stage.failure_reason Stage.duration_ms
       Stage.set_completion_time Stage.set_status Stage.set_failure_reason
       Stage.set_duration_ms].

Ltac run1 :=
  lazymatch goal with
  | |- context [bind (bind ?m ?f) ?g ?s] => rewrite (bind_assoc m f g s)
  | |- context [bind (lift (Ok ?a)) ?k ?s] =>
      change (bind (lift (Ok a)) k s) with (k a s); cbv beta
  | |- context [bind (ret ?a) ?k ?s] =>
      change (bind (ret a) k s) with (k a s); cbv beta
  | |- context [bind read ?k ?s] =>
      change (bind read k s) with (k s s); cbv beta
  | |- context [bind (update_job ?k0 ?f) ?k ?s] =>
      erewrite (bind_run (update_job k0 f) k s); [|apply update_job_run; lookup_solve]
  | |- context [bind (job_at ?k0) ?k ?s] =>
      erewrite (bind_run (job_at k0) k s); [|apply job_at_run; lookup_solve]
  | |- context [bind (update_stage ?k0 ?f) ?k ?s] =>
      erewrite (bind_run (update_stage k0 f) k s); [|apply update_stage_run; lookup_solve]
  | |- context [bind (stage_at ?k0) ?k ?s] =>
      erewrite (bind_run (stage_at k0) k s); [|apply stage_at_run; lookup_solve]
  end.

Ltac run := norm; repeat (run1; norm).


(** ** Frames: what an event of another kind leaves alone *)

#[local] Instance same_jobs_preorder : PreOrder same_jobs.
Proof. split; unfold same_jobs; [done|intros ? ? ?; congruence]. Qed.

#[local] Instance same_stages_preorder : PreOrder same_stages.
Proof. split; unfold same_stages; [done|intros ? ? ?; congruence]. Qed.

Ltac frame_call :=
  unfold keeps, same_jobs, same_stages;
  repeat first
    [ progress unfold set_application_info, set_jobs, set_stages, set_metrics, update_job,
        update_stage, job_at, stage_at, add_to, bind, read, modify, lift, ret, iadd
    | progress cbn
    | case_match; simplify_eq ];
  reflexivity.

Ltac fwalk1 po :=
  lazymatch goal with
  | |- keeps _ _ (bind (lift _) _) => apply (keeps_bind_lift _ po); intros ? ?
  | |- keeps _ _ (bind read _) => apply (keeps_bind_read _ po)
  | |- keeps _ _ (bind _ _) => apply (keeps_bind _ po); [|intros ? ? _ _]
  | |- keeps _ _ (if ?c then _ else _) => destruct c eqn:?
  | |- keeps _ _ (for_each _ _) => apply (keeps_for_each _ po); intros ? ? _
  | |- keeps _ _ (add_accumulable _) => unfold add_accumulable
  | |- keeps _ _ (add_task_metrics _) => unfold add_task_metrics
  | |- keeps _ _ (accumulate_metrics _) => unfold accumulate_metrics
  | |- keeps _ _ _ => frame_call
  end.

Ltac fwalk po := repeat fwalk1 po.

Lemma accumulate_metrics_jobs stage_info s : keeps same_jobs s (accumulate_metrics stage_info).
Proof. fwalk same_jobs_preorder. Qed.

Lemma accumulate_metrics_stages stage_info s :
  keeps same_stages s (accumulate_metrics stage_info).
Proof. fwalk same_stages_preorder. Qed.

Lemma is_str_true v literal : is_str v literal = true → v = JStr literal.
Proof. destruct v; try done. cbn. by intros ->%bool_decide_eq_true. Qed.

(** An event that is neither JobStart nor JobEnd leaves the job map alone. *)
Lemma other_event_jobs e s :
  (∀ t, dict_get e "Event" = Ok t →
        is_str t "SparkListenerJobStart" = false ∧ is_str t "SparkListenerJobEnd" = false) →
  jobs (_parse_event e s).1 = jobs s.
Proof.
  intros Hother. change (keeps same_jobs s (_parse_event e)). unfold _parse_event.
  apply (keeps_bind_lift _ same_jobs_preorder). intros t Ht.
  destruct (Hother t Ht) as [-> ->].
  unfold parse_application_start, parse_application_end, parse_stage_submitted,
    parse_stage_completed.
  fwalk same_jobs_preorder.
Qed.

(** An event that is neither StageSubmitted nor StageCompleted leaves the
    stage map alone. *)
Lemma other_event_stages e s :
  (∀ t, dict_get e "Event" = Ok t →
        is_str t "SparkListenerStageSubmitted" = false
        ∧ is_str t "SparkListenerStageCompleted" = false) →
  stages (_parse_event e s).1 = stages s.
Proof.
  intros Hother. change (keeps same_stages s (_parse_event e)). unfold _parse_event.
  apply (keeps_bind_lift _ same_stages_preorder). intros t Ht.
  destruct (Hother t Ht) as [-> ->].
  unfold parse_application_start, parse_application_end, parse_job_start, parse_job_end.
  fwalk same_stages_preorder.
Qed.

(** ** Derived durations *)

Lemma py_sub_Ok a b d :
  py_sub a b = Ok d → ∃ x y, as_number a = Some x ∧ as_number b = Some y ∧ d = x - y.
Proof.
  unfold py_sub. destruct (as_number a) as [x|], (as_number b) as [y|]; try done.
  intros [= <-]. eauto.
Qed.

Lemma parse_event_dispatch_job_start e s :
  dict_get e "Event" = Ok (JStr "SparkListenerJobStart") →
  _parse_event e s = parse_job_start e s.
Proof. intros H. unfold _parse_event. by rewrite (bind_lift_run _ _ _ _ H). Qed.

Lemma parse_event_dispatch_stage_submitted e s :
  dict_get e "Event" = Ok (JStr "SparkListenerStageSubmitted") →
  _parse_event e s = parse_stage_submitted e s.
Proof. intros H. unfold _parse_event. by rewrite (bind_lift_run _ _ _ _ H). Qed.

Lemma parse_event_dispatch_stage_completed e s :
  dict_get e "Event" = Ok (JStr "SparkListenerStageCompleted") →
  _parse_event e s = parse_stage_completed e s.
Proof. intros H. unfold _parse_event. by rewrite (bind_lift_run _ _ _ _ H). Qed.

Ltac run_set :=
  lazymatch goal with
  | |- context [bind (set_jobs ?js) ?k ?s] =>
      change (bind (set_jobs js) k s) with (k tt (with_jobs s js)); cbv beta
  | |- context [bind (set_stages ?ss) ?k ?s] =>
      change (bind (set_stages ss) k s) with (k tt (with_stages s ss)); cbv beta
  | |- context [bind (add_to ?c ?st (JInt 1)) ?k ?s] =>
      change (bind (add_to c st (JInt 1)) k s)
        with (k tt (with_metrics s (st (c (metrics s) + 1) (metrics s)))); cbv beta
  end.

Ltac run' := norm; repeat (first [run1 | run_set]; norm).

Ltac raise_case H := cbv [bind lift] in H; cbn [fst] in H.

Lemma job_duration_step e s k j' d :
  jobs (_parse_event e s).1 !! k = Some j' → Job.duration_ms j' = Some d →
  (∃ j, jobs s !! k = Some j ∧ Job.duration_ms j = Some d)
  ∨ derived (Job.submission_time j') (Job.completion_time j') d.
Proof.
  intros Hj' Hd.
  destruct (dict_get e "Event") as [t|err] eqn:Ht; cycle 1.
  { rewrite other_event_jobs in Hj' by (intros ? ?; congruence). left. eauto. }
  destruct (is_str t "SparkListenerJobStart") eqn:E1.
  { apply is_str_true in E1 as ->. rewrite (parse_event_dispatch_job_start _ _ Ht) in Hj'.
    apply dict_get_default_Ok_inv in Ht as (kvs & -> & _).
    revert Hj'. unfold parse_job_start. run'.
    destruct (hash _) as [k0|err] eqn:Hk; [|intros H; raise_case H; left; eauto].
    run'. rewrite add_to_one_run. norm. cbn [fst jobs with_jobs with_metrics].
    destruct (decide (k0 = k)) as [->|Hne].
    - rewrite lookup_insert_eq. intros [= <-]. done.
    - rewrite lookup_insert_ne by done. left. eauto. }
  destruct (is_str t "SparkListenerJobEnd") eqn:E2; cycle 1.
  { rewrite other_event_jobs in Hj'
      by (intros t0 Ht0; rewrite Ht in Ht0; injection Ht0 as <-; done).
    left. eauto. }
  apply is_str_true in E2 as ->. rewrite (parse_event_dispatch_job_end _ _ Ht) in Hj'.
  apply dict_get_default_Ok_inv in Ht as (kvs & -> & _).
  revert Hj'. unfold parse_job_end. run'.
  destruct (hash _) as [k0|err] eqn:Hk; [|intros H; raise_case H; left; eauto].
  run'. destruct (jobs s !! k0) as [j|] eqn:Hj; cycle 1.
  { rewrite bool_decide_eq_false_2 by (by intros [? ?]). intros H. left. eauto. }
  rewrite bool_decide_eq_true_2 by done. run'.
  assert (Hold: ∀ (m : gmap key Job.t) j0, m !! k0 = Some j0 →
            Job.duration_ms j0 = Job.duration_ms j →
            (∀ k', k' ≠ k0 → m !! k' = jobs s !! k') →
            m !! k = Some j' →
    (∃ j, jobs s !! k = Some j ∧ Job.duration_ms j = Some d)
    ∨ derived (Job.submission_time j') (Job.completion_time j') d).
  { intros m j0 Hm0 Hd0 Hm Hmk. left. destruct (decide (k = k0)) as [->|Hne].
    - exists j. split; [done|]. rewrite Hm0 in Hmk. injection Hmk as <-. congruence.
    - exists j'. split; [|done]. by rewrite <- Hm. }
  set (ct := default JNull (assoc "Completion Time" kvs)).
  destruct (default (JObj []) (assoc "Job Result" kvs)) as [| | | | |rkvs] eqn:Hjr;
    try (intros H; raise_case H; revert H; norm; intros H;
         refine (Hold _ _ _ _ _ H); [apply lookup_insert_eq|reflexivity|];
         intros k' Hk'; by rewrite !lookup_insert_ne).
  run'.
  destruct (truthy (Job.submission_time j)) eqn:Hsub.
  - run'. destruct (py_sub ct (Job.submission_time j)) as [d0|err] eqn:Hsubtr.
    + run'.
      match goal with
      | |- context [is_str ?x "JobSucceeded"] => destruct (is_str x "JobSucceeded")
      end; cbv beta iota; rewrite add_to_one_run; norm;
        (destruct (decide (k0 = k)) as [->|Hne];
         [ rewrite lookup_insert_eq; intros [= <-]; right;
           apply py_sub_Ok in Hsubtr as (x & y & Hx & Hy & ->);
           norm; injection Hd as <-; exists y, x, ct; done
         | rewrite !lookup_insert_ne by done; intros H; left; exists j'; done ]).
    + intros H. raise_case H. revert H. norm. intros H.
      refine (Hold _ _ _ _ _ H); [apply lookup_insert_eq|reflexivity|].
      intros k' Hk'. by rewrite !lookup_insert_ne.
  - run'.
    match goal with
    | |- context [is_str ?x "JobSucceeded"] => destruct (is_str x "JobSucceeded")
    end; cbv beta iota; rewrite add_to_one_run; norm; intros H;
      (refine (Hold _ _ _ _ _ H); [apply lookup_insert_eq|reflexivity|];
       intros k' Hk'; by rewrite !lookup_insert_ne).
Qed.

Lemma add_to_stages counter store v s : stages (add_to counter store v s).1 = stages s.
Proof. change (keeps same_stages s (add_to counter store v)). frame_call. Qed.

Lemma stage_duration_step e s k g' d :
  stages (_parse_event e s).1 !! k = Some g' → Stage.duration_ms g' = Some d →
  (∃ g, stages s !! k = Some g ∧ Stage.duration_ms g = Some d)
  ∨ derived (Stage.submission_time g') (Stage.completion_time g') d.
Proof.
  intros Hg' Hd.
  destruct (dict_get e "Event") as [t|err] eqn:Ht; cycle 1.
  { rewrite other_event_stages in Hg' by (intros ? ?; congruence). left. eauto. }
  destruct (is_str t "SparkListenerStageSubmitted") eqn:E1.
  { apply is_str_true in E1 as ->. rewrite (parse_event_dispatch_stage_submitted _ _ Ht) in Hg'.
    apply dict_get_default_Ok_inv in Ht as (kvs & -> & _).
    revert Hg'. unfold parse_stage_submitted. run'.
    destruct (default (JObj []) (assoc "Stage Info" kvs)) as [| | | | |skvs] eqn:Hinfo;
      try solve [intros H; raise_case H; left; eauto].
    run'.
    destruct (hash _) as [k0|err] eqn:Hk; [|intros H; raise_case H; left; eauto].
    run'. rewrite add_to_stages. norm.
    destruct (decide (k0 = k)) as [->|Hne].
    - rewrite lookup_insert_eq. intros [= <-]. done.
    - rewrite lookup_insert_ne by done. left. eauto. }
  destruct (is_str t "SparkListenerStageCompleted") eqn:E2; cycle 1.
  { rewrite other_event_stages in Hg'
      by (intros t0 Ht0; rewrite Ht in Ht0; injection Ht0 as <-; done).
    left. eauto. }
  apply is_str_true in E2 as ->. rewrite (parse_event_dispatch_stage_completed _ _ Ht) in Hg'.
  apply dict_get_default_Ok_inv in Ht as (kvs & -> & _).
  revert Hg'. unfold parse_stage_completed. run'.
  destruct (default (JObj []) (assoc "Stage Info" kvs)) as [| | | | |skvs] eqn:Hinfo;
    try solve [intros H; raise_case H; left; eauto].
  run'.
  destruct (hash _) as [k0|err] eqn:Hk; [|intros H; raise_case H; left; eauto].
  run'. destruct (stages s !! k0) as [g|] eqn:Hg; cycle 1.
  { rewrite bool_decide_eq_false_2 by (by intros [? ?]). intros H. left. eauto. }
  rewrite bool_decide_eq_true_2 by done. run'.
  assert (Hold: ∀ (m : gmap key Stage.t) g0, m !! k0 = Some g0 →
            Stage.duration_ms g0 = Stage.duration_ms g →
            (∀ k', k' ≠ k0 → m !! k' = stages s !! k') →
            m !! k = Some g' →
    (∃ g, stages s !! k = Some g ∧ Stage.duration_ms g = Some d)
    ∨ derived (Stage.submission_time g') (Stage.completion_time g') d).
  { intros m g0 Hm0 Hd0 Hm Hmk. left. destruct (decide (k = k0)) as [->|Hne].
    - exists g. split; [done|]. rewrite Hm0 in Hmk. injection Hmk as <-. congruence.
    - exists g'. split; [|done]. by rewrite <- Hm. }
  set (ct := default JNull (assoc "Completion Time" skvs)).
  destruct (truthy (default JNull (assoc "Failure Reason" skvs))) eqn:Hfr; run'.
  all: destruct (truthy (Stage.submission_time g) && truthy ct) eqn:Hboth; run'.
  all: try (destruct (py_sub ct (Stage.submission_time g)) as [d0|err] eqn:Hsubtr;
            [run'|intros H; raise_case H; revert H; norm; intros H;
                  refine (Hold _ _ _ _ _ H); [apply lookup_insert_eq|reflexivity|];
                  intros k' Hk'; by rewrite !lookup_insert_ne]).
  all: match goal with
       | |- context [accumulate_metrics ?i ?s0] =>
           rewrite (accumulate_metrics_stages i s0 : stages (accumulate_metrics i s0).1 = _)
       end; norm.
  all: try (intros H; refine (Hold _ _ _ _ _ H); [apply lookup_insert_eq|reflexivity|];
            intros k' Hk'; by rewrite !lookup_insert_ne).
  all: destruct (decide (k0 = k)) as [->|Hne];
         [ rewrite lookup_insert_eq; intros [= <-]; right;
           apply py_sub_Ok in Hsubtr as (x & y & Hx & Hy & ->);
           norm; injection Hd as <-; exists y, x, ct; done
         | rewrite !lookup_insert_ne by done; intros H; left; exists g'; done ].
Qed.

(** ** Whole passes *)










(** ** A line that is not an event *)

Lemma parse_event_not_object v s : (∀ kvs, v ≠ JObj kvs) → _parse_event v s = (s, Raise AttributeError).
Proof. intros Hv. destruct v; try done. by destruct (Hv kvs). Qed.



(** ** Durations *)

(** C8, event by event and without the sign condition. A job or stage
    duration_ms that is present after an event either was present with the
    same value before the event, or is completion - submission for a
    submission and a completion timestamp that are both present as numbers
    in the record; nothing bounds its sign. *)
Theorem durations_derived e s :
  (∀ k j' d,
     jobs (_parse_event e s).1 !! k = Some j' → Job.duration_ms j' = Some d →
     (∃ j, jobs s !! k = Some j ∧ Job.duration_ms j = Some d)
     ∨ derived (Job.submission_time j') (Job.completion_time j') d)
  ∧ (∀ k g' d,
       stages (_parse_event e s).1 !! k = Some g' → Stage.duration_ms g' = Some d →
       (∃ g, stages s !! k = Some g ∧ Stage.duration_ms g = Some d)
       ∨ derived (Stage.submission_time g') (Stage.completion_time g') d).
Proof. split; intros; [by eapply job_duration_step|by eapply stage_duration_step]. Qed.

Lemma durations_derived_counterexample :
  ∃ j, jobs (parse_lines [Decoded job_start_1; Decoded job_end_early] init).1 !! KInt 1 = Some j
       ∧ Job.duration_ms j = Some (-500).
Proof. eexists. split; vm_compute; reflexivity. Qed.

Lemma durations_derived_witness :
  ∃ j', jobs (_parse_event job_end_early (_parse_event job_start_1 init).1).1 !! KInt 1 = Some j'
        ∧ Job.duration_ms j' = Some (-500)
        ∧ ((∃ j, jobs (_parse_event job_start_1 init).1 !! KInt 1 = Some j
                 ∧ Job.duration_ms j = Some (-500))
           ∨ derived (Job.submission_time j') (Job.completion_time j') (-500)).
Proof.
  eexists. split; [vm_compute; reflexivity|]. split; [vm_compute; reflexivity|].
  apply (proj1 (durations_derived job_end_early (_parse_event job_start_1 init).1) (KInt 1));
    vm_compute; reflexivity.
Defined.

End ParserProofs.
